(** * DjangoOnlineStore: the store application's serializers and views

    A shallow embedding of [store/serializers.py] and [store/views.py]:
    the derived values the serializers compute (price with tax, line and
    cart totals), the cart-item upsert of [AddCartItemSerializer.save],
    and the request handlers of the view sets, over an explicit model of
    the tables they read and write. *)

From Stdlib Require Import ZArith NArith QArith Qpower Lia.
From stdpp Require Import gmap strings list fin_maps.

Local Open Scope Z_scope.

(** ** Python numbers used by the serializers *)

(** [decimal.Decimal], finite values: [(-1)^sign * coeff * 10^exp], with the
    arithmetic of the default context ([prec = 28], [ROUND_HALF_EVEN]).
    The exponent limits of the context ([Emin], [Emax] = -+999999) are not
    modelled. *)
Module Decimal.

Record t := mk { sign : bool; coeff : N; exp : Z }.

(** [getcontext().prec] *)
Definition prec : N := 28.

Fixpoint ndigits_aux (fuel : nat) (n : N) : N :=
  match fuel with
  | O => 1
  | S fuel' => if (n <? 10)%N then 1 else (1 + ndigits_aux fuel' (n / 10))%N
  end.

(** [len(self._int)]: the number of decimal digits of the coefficient. *)
Definition ndigits (n : N) : N := ndigits_aux (N.to_nat (N.size n)) n.

(** Quotient of [n] by [d], rounded to nearest, ties to even. *)
Definition div_half_even (n d : N) : N :=
  let q := (n / d)%N in
  let r := (n mod d)%N in
  match (2 * r ?= d)%N with
  | Lt => q
  | Gt => (q + 1)%N
  | Eq => if N.even q then q else (q + 1)%N
  end.

(** [Decimal._fix]: round to [prec] significant digits when the
    coefficient has more; a carry out of the top digit drops one more
    digit. Zero is returned as it is. *)
Definition fix_ (d : t) : t :=
  if (coeff d =? 0)%N then d
  else
    let n := ndigits (coeff d) in
    if (n <=? prec)%N then d
    else
      let k := (n - prec)%N in
      let c := div_half_even (coeff d) (10 ^ k) in
      if (c =? 10 ^ prec)%N
      then mk (sign d) (c / 10) (exp d + Z.of_N k + 1)
      else mk (sign d) c (exp d + Z.of_N k).

(** [Decimal(int)]: exact. *)
Definition of_int (z : Z) : t := mk (z <? 0) (Z.abs_N z) 0.

(** The signed coefficient. *)
Definition signed (d : t) : Z :=
  if sign d then - Z.of_N (coeff d) else Z.of_N (coeff d).

(** [Decimal.__mul__] *)
Definition mul (a b : t) : t :=
  fix_ (mk (xorb (sign a) (sign b)) (coeff a * coeff b) (exp a + exp b)).

(** [Decimal.__add__]: the operands are aligned at the smaller exponent
    and added; a zero sum is negative only when both operands are. *)
Definition add (a b : t) : t :=
  let e := Z.min (exp a) (exp b) in
  let s := signed a * 10 ^ (exp a - e) + signed b * 10 ^ (exp b - e) in
  fix_ (mk (if s =? 0 then sign a && sign b else s <? 0) (Z.abs_N s) e).

(** The rational number a decimal stands for. *)
Definition value (d : t) : Q := (inject_Z (signed d) * Qpower (10 # 1) (exp d))%Q.

End Decimal.

(** Python [float] (IEEE 754 binary64), finite values [(-1)^sign * mant * 2^exp]. *)
Module Float.

Record t := mk { sign : bool; mant : N; exp : Z }.

(** [n/d / 2^e] as a fraction of naturals. *)
Definition scaled (n d : N) (e : Z) : N * N :=
  if 0 <=? e then (n, (d * 2 ^ Z.to_N e)%N) else ((n * 2 ^ Z.to_N (- e))%N, d).

(** The double a positive decimal literal [n/d] denotes: the nearest
    53-bit significand, ties to even (normal range). *)
Definition of_ratio (n d : N) : t :=
  let e0 := Z.of_N (N.log2 n) - Z.of_N (N.log2 d) - 52 in
  let '(a, b) := scaled n d e0 in
  let e := if (a <? b * 2 ^ 52)%N then e0 - 1 else e0 in
  let '(a, b) := scaled n d e in
  let m := Decimal.div_half_even a b in
  if (m =? 2 ^ 53)%N then mk false (2 ^ 52) (e + 1) else mk false m e.

(** [float.as_integer_ratio] of the absolute value: lowest terms. *)
Definition as_integer_ratio (f : t) : N * N :=
  if 0 <=? exp f then ((mant f * 2 ^ Z.to_N (exp f))%N, 1%N)
  else
    let d := (2 ^ Z.to_N (- exp f))%N in
    let g := N.gcd (mant f) d in
    ((mant f / g)%N, (d / g)%N).

End Float.

(** [Decimal.from_float], which [Decimal(f)] calls for a float argument:
    the exact value of the double, no rounding. *)
Definition Decimal_from_float (f : Float.t) : Decimal.t :=
  let '(n, d) := Float.as_integer_ratio f in
  let k := N.log2 d in
  Decimal.mk (Float.sign f) (n * 5 ^ k) (- Z.of_N k).

(** Values of the arithmetic expressions in the serializers: [int] or [Decimal]. *)
Inductive PyNum :=
| PyInt (z : Z)
| PyDec (d : Decimal.t).

Definition py_mul (a b : PyNum) : PyNum :=
  match a, b with
  | PyInt x, PyInt y => PyInt (x * y)
  | PyInt x, PyDec d => PyDec (Decimal.mul (Decimal.of_int x) d)
  | PyDec d, PyInt y => PyDec (Decimal.mul d (Decimal.of_int y))
  | PyDec d, PyDec d' => PyDec (Decimal.mul d d')
  end.

Definition py_add (a b : PyNum) : PyNum :=
  match a, b with
  | PyInt x, PyInt y => PyInt (x + y)
  | PyInt x, PyDec d => PyDec (Decimal.add (Decimal.of_int x) d)
  | PyDec d, PyInt y => PyDec (Decimal.add d (Decimal.of_int y))
  | PyDec d, PyDec d' => PyDec (Decimal.add d d')
  end.

(** The builtin [sum]: a left fold of [+] from the integer [0]. *)
Definition py_sum (l : list PyNum) : PyNum := fold_left py_add l (PyInt 0).

Definition py_value (v : PyNum) : Q :=
  match v with
  | PyInt z => inject_Z z
  | PyDec d => Decimal.value d
  end.

(** The float literal [1.1]. *)
Definition float_1_1 : Float.t := Float.of_ratio 11 10.


(** ** Exceptions and results *)

Inductive Exn :=
| DoesNotExist
| MultipleObjectsReturned
| IntegrityError
| Http404
| AssertionError
| ValidationError (message : string)
| ValidationErrors (errors : list (string * string)).

Inductive Result (A : Type) :=
| Ok (a : A)
| Raise (e : Exn).
Arguments Ok {A} a.
Arguments Raise {A} e.

#[export] Instance result_ret : MRet Result := λ A a, Ok a.

#[export] Instance result_bind : MBind Result := λ A B k r,
  match r with
  | Ok a => k a
  | Raise e => Raise e
  end.

Fixpoint mapR {A B} (f : A → Result B) (l : list A) : Result (list B) :=
  match l with
  | [] => Ok []
  | x :: l' => y ← f x; ys ← mapR f l'; Ok (y :: ys)
  end.

(** ** Data model *)

(** A cart is identified by a UUID, every other row by an integer key. *)
Abbreviation UUID := N (only parsing).

(** Modelled from the spec: [store/models.py] is not among the sources; the
    entities, their attributes and their references are those of the data
    model table (§3): a product is owned by a collection, an order line
    and a review reference a product, a cart item references its cart and a
    product. *)
Record Collection := { collection_title : string }.

Record Product := {
  product_title : string;
  product_description : string;
  product_slug : string;
  product_inventory : Z;
  product_unit_price : Decimal.t;
  product_collection : Z
}.

Record OrderItem := { orderitem_product : Z }.

Record Review := {
  review_product : Z;
  review_name : string;
  review_description : string
}.

Record CartItem := {
  cartitem_cart : UUID;
  cartitem_product : Z;
  cartitem_quantity : Z
}.

(** The tables, each keyed by primary key. The two tables that get rows
    here, reviews and cart items, have integer keys that the database
    issues itself: [reviews_seq] and [cartitems_seq] are their key sequences,
    the largest key the table has issued so far. *)
Record Store := {
  collections : gmap Z Collection;
  products : gmap Z Product;
  orderitems : gmap Z OrderItem;
  reviews : gmap Z Review;
  carts : gset UUID;
  cartitems : gmap Z CartItem;
  reviews_seq : Z;
  cartitems_seq : Z
}.

(** [cart.items.all()] and [CartItem.objects.filter(cart_id=...)]: the rows
    of a cart with their keys. *)
Definition cart_items (s : Store) (cart : UUID) : list (Z * CartItem) :=
  map_to_list (filter (λ kv, cartitem_cart kv.2 = cart) (cartitems s)).

(** [cart_item.product]: following the reference. *)
Definition related_product (s : Store) (item : CartItem) : Result Product :=
  match products s !! cartitem_product item with
  | Some p => Ok p
  | None => Raise DoesNotExist
  end.

(** ** Serializers ([store/serializers.py]) *)

(** What a response carries. *)
Inductive Body :=
| NoBody
| ErrorBody (error : string)                    (* [{'error': message}] *)
| DetailBody (detail : string)                  (* [{'detail': message}] *)
| FieldErrorsBody (errors : list (string * string))
| FieldsBody (fields : list (string * Z)).

Record Response := { body : Body; status : Z }.

(** A [ModelSerializer] builds its fields from its [Meta]:
    [get_fields] starts with [assert hasattr(self, 'Meta')]. In a class that
    declares no [Meta], whatever needs the fields, [is_valid] for the input
    and [data] for the output, raises [AssertionError]. *)
Definition missing_Meta {A} : Result A := Raise AssertionError.

Module ProductSerializer.

(** [product.unit_price * Decimal(1.1)] *)
Definition calculate_tax (product : Product) : Decimal.t :=
  Decimal.mul (product_unit_price product) (Decimal_from_float float_1_1).

End ProductSerializer.

Module CartItemSerializer.

(** [cart_item.quantity * cart_item.product.unit_price] *)
Definition get_total_price (s : Store) (cart_item : CartItem) : Result PyNum :=
  product ← related_product s cart_item;
  Ok (py_mul (PyInt (cartitem_quantity cart_item)) (PyDec (product_unit_price product))).

End CartItemSerializer.

Module CartSerializer.

(** [sum([item.quantity * item.product.unit_price for item in cart.items.all()])] *)
Definition get_total_price (s : Store) (cart : UUID) : Result PyNum :=
  terms ← mapR (λ item : Z * CartItem,
                  product ← related_product s item.2;
                  Ok (py_mul (PyInt (cartitem_quantity item.2))
                             (PyDec (product_unit_price product))))
               (cart_items s cart);
  Ok (py_sum terms).

(** [is_valid] and [data]: the class declares the fields [id], [items] and
    [total_price], and no [Meta]. *)
Definition is_valid : Result unit := missing_Meta.

Definition data (s : Store) (cart : UUID) : Result Body := missing_Meta.

End CartSerializer.

(** The key an auto-increment column gives a new row: one past the largest
    key the table has issued ([seq]), and past every key in use. A key is
    issued once: the key of a deleted row does not come back. *)
Definition next_pk {A} (seq : Z) (m : gmap Z A) : Z :=
  1 + Z.max seq (foldr Z.max 0 (map fst (map_to_list m))).

(** [CartItem.objects.get(cart_id=..., product_id=...)] *)
Definition CartItem_objects_get (s : Store) (cart_id : UUID) (product_id : Z)
  : Result (Z * CartItem) :=
  match map_to_list (filter (λ kv, cartitem_cart kv.2 = cart_id ∧
                                   cartitem_product kv.2 = product_id)
                            (cartitems s)) with
  | [] => Raise DoesNotExist
  | [row] => Ok row
  | _ => Raise MultipleObjectsReturned
  end.

(** [instance.save()] of a cart item that has a key: the row is written. *)
Definition CartItem_save (s : Store) (pk : Z) (item : CartItem) : Store :=
  {| collections := collections s; products := products s;
     orderitems := orderitems s; reviews := reviews s; carts := carts s;
     cartitems := <[pk := item]> (cartitems s);
     reviews_seq := reviews_seq s; cartitems_seq := cartitems_seq s |}.

(** The [INSERT] of a cart item: the row is written under the key the
    table issued for it. *)
Definition CartItem_insert (s : Store) (pk : Z) (item : CartItem) : Store :=
  {| collections := collections s; products := products s;
     orderitems := orderitems s; reviews := reviews s; carts := carts s;
     cartitems := <[pk := item]> (cartitems s);
     reviews_seq := reviews_seq s; cartitems_seq := pk |}.

(** [CartItem.objects.create(...)]: a new row under a new key.
    Modelled from the spec for what [store/models.py] declares: the cart and
    the product of an item are references (§3), so the store refuses a row
    whose cart or product does not exist. *)
Definition CartItem_objects_create (s : Store) (item : CartItem)
  : Result (Z * CartItem * Store) :=
  if decide (cartitem_cart item ∈ carts s ∧ is_Some (products s !! cartitem_product item))
  then let pk := next_pk (cartitems_seq s) (cartitems s) in
       Ok (pk, item, CartItem_insert s pk item)
  else Raise IntegrityError.

(** The request body: a JSON object with integer members. *)
Abbreviation Data := (gmap string Z).

(** Modelled from the spec: the [quantity] field of both cart-item
    serializers is generated from the [CartItem] model, which is not among
    the sources; §3 and §4.5 require a positive quantity. *)
Definition validate_quantity (value : Z) : Result Z :=
  if decide (1 ≤ value) then Ok value
  else Raise (ValidationError "Ensure this value is greater than or equal to 1.").

(** What a field contributes to the error dictionary. *)
Definition field_errors {A} (name : string) (r : Result A) : list (string * string) :=
  match r with
  | Raise (ValidationError message) => [(name, message)]
  | _ => []
  end.

Module AddCartItemSerializer.

Record validated_data := { product_id : Z; quantity : Z }.

Definition validate_product_id (s : Store) (value : Z) : Result Z :=
  if decide (is_Some (products s !! value)) then Ok value
  else Raise (ValidationError "No product with the given ID was found.").

(** [is_valid(raise_exception=True)]. The class declares one field,
    [product_id], and no [Meta]: the fields cannot be built, and the
    request data is not looked at. *)
Definition is_valid (s : Store) (data : Data) : Result validated_data := missing_Meta.

(** [serializer.data], the representation of the saved item: it needs the
    fields as well. *)
Definition data (instance : CartItem) : Result Body := missing_Meta.

(** [save]: increment the quantity of the row of this cart and product
    when [get] finds it, create a row when [get] raises [DoesNotExist];
    any other exception of [get] propagates. *)
Definition save (s : Store) (cart_id : UUID) (vd : validated_data)
  : Result (Z * CartItem * Store) :=
  match CartItem_objects_get s cart_id (product_id vd) with
  | Ok (pk, cart_item) =>
      let cart_item' :=
        {| cartitem_cart := cartitem_cart cart_item;
           cartitem_product := cartitem_product cart_item;
           cartitem_quantity := cartitem_quantity cart_item + quantity vd |} in
      Ok (pk, cart_item', CartItem_save s pk cart_item')
  | Raise DoesNotExist =>
      CartItem_objects_create s
        {| cartitem_cart := cart_id; cartitem_product := product_id vd;
           cartitem_quantity := quantity vd |}
  | Raise e => Raise e
  end.

End AddCartItemSerializer.

Module UpdateCartItemSerializer.

(** [fields = ['quantity']], used with [partial=True]: only [quantity] is
    read from the body, and it may be absent. *)
Definition is_valid (data : Data) : Result (option Z) :=
  match data !! "quantity" with
  | Some value =>
      match validate_quantity value with
      | Ok q => Ok (Some q)
      | Raise e => Raise (ValidationErrors (field_errors "quantity" (@Raise Z e)))
      end
  | None => Ok None
  end.

(** [ModelSerializer.update]: set the validated attributes, save. *)
Definition save (s : Store) (pk : Z) (instance : CartItem) (vd : option Z)
  : CartItem * Store :=
  let instance' :=
    match vd with
    | Some q => {| cartitem_cart := cartitem_cart instance;
                   cartitem_product := cartitem_product instance;
                   cartitem_quantity := q |}
    | None => instance
    end in
  (instance', CartItem_save s pk instance').

End UpdateCartItemSerializer.

(** ** Views ([store/views.py]) *)

Definition HTTP_200_OK : Z := 200.
Definition HTTP_201_CREATED : Z := 201.
Definition HTTP_204_NO_CONTENT : Z := 204.
Definition HTTP_400_BAD_REQUEST : Z := 400.
Definition HTTP_404_NOT_FOUND : Z := 404.
Definition HTTP_405_METHOD_NOT_ALLOWED : Z := 405.
Definition HTTP_500_INTERNAL_SERVER_ERROR : Z := 500.

(** The framework's exception handler: validation errors and [Http404]
    become client responses, anything else is a server error. *)
Definition exception_response (e : Exn) : Response :=
  match e with
  | ValidationError message =>
      {| body := FieldErrorsBody [("non_field_errors", message)]; status := HTTP_400_BAD_REQUEST |}
  | ValidationErrors errors =>
      {| body := FieldErrorsBody errors; status := HTTP_400_BAD_REQUEST |}
  | Http404 => {| body := DetailBody "Not found."; status := HTTP_404_NOT_FOUND |}
  | _ => {| body := NoBody; status := HTTP_500_INTERNAL_SERVER_ERROR |}
  end.

(** A handler that raises has written nothing: the store stays as it was. *)
Definition respond (s : Store) (r : Result (Response * Store)) : Response * Store :=
  match r with
  | Ok out => out
  | Raise e => (exception_response e, s)
  end.

(** [get_object_or_404(Model, pk=pk)] *)
Definition get_object_or_404 {A} (table : gmap Z A) (pk : Z) : Result A :=
  match table !! pk with
  | Some row => Ok row
  | None => Raise Http404
  end.

(** [product.orderitems.count()] *)
Definition orderitems_count (s : Store) (pk : Z) : Z :=
  Z.of_nat (size (filter (λ kv, orderitem_product kv.2 = pk) (orderitems s))).

(** [collection.products.count()] *)
Definition products_count (s : Store) (pk : Z) : Z :=
  Z.of_nat (size (filter (λ kv, product_collection kv.2 = pk) (products s))).

(** Modelled from the spec: [product.delete()] follows the references
    declared in [store/models.py], which is not among the sources; by §3 only
    order lines block the deletion of a product, so its reviews and the cart
    items that reference it go with it. *)
Definition Product_delete (s : Store) (pk : Z) : Store :=
  {| collections := collections s;
     products := delete pk (products s);
     orderitems := orderitems s;
     reviews := filter (λ kv, review_product kv.2 ≠ pk) (reviews s);
     carts := carts s;
     cartitems := filter (λ kv, cartitem_product kv.2 ≠ pk) (cartitems s);
     reviews_seq := reviews_seq s; cartitems_seq := cartitems_seq s |}.

(** [collection.delete()], for a collection without products. *)
Definition Collection_delete (s : Store) (pk : Z) : Store :=
  {| collections := delete pk (collections s);
     products := products s; orderitems := orderitems s; reviews := reviews s;
     carts := carts s; cartitems := cartitems s;
     reviews_seq := reviews_seq s; cartitems_seq := cartitems_seq s |}.

(** Modelled from the spec: [cart.delete()] removes the cart and, by §4.3,
    cascade-deletes its items. *)
Definition Cart_delete (s : Store) (id : UUID) : Store :=
  {| collections := collections s; products := products s;
     orderitems := orderitems s; reviews := reviews s;
     carts := carts s ∖ {[ id ]};
     cartitems := filter (λ kv, cartitem_cart kv.2 ≠ id) (cartitems s);
     reviews_seq := reviews_seq s; cartitems_seq := cartitems_seq s |}.

(** [cart_item.delete()] *)
Definition CartItem_delete (s : Store) (pk : Z) : Store :=
  {| collections := collections s; products := products s;
     orderitems := orderitems s; reviews := reviews s; carts := carts s;
     cartitems := delete pk (cartitems s);
     reviews_seq := reviews_seq s; cartitems_seq := cartitems_seq s |}.

(** [Cart.objects.create()] with the identifier drawn for it. *)
Definition Cart_objects_create (s : Store) (id : UUID) : Result Store :=
  if decide (id ∈ carts s) then Raise IntegrityError
  else Ok {| collections := collections s; products := products s;
             orderitems := orderitems s; reviews := reviews s;
             carts := {[ id ]} ∪ carts s; cartitems := cartitems s;
             reviews_seq := reviews_seq s; cartitems_seq := cartitems_seq s |}.

Module ProductViewSet.

(** [delete(self, request, pk)]: delete a product. *)
Definition delete (s : Store) (pk : Z) : Response * Store :=
  respond s (
    product ← get_object_or_404 (products s) pk;
    if decide (orderitems_count s pk > 0) then
      Ok ({| body := ErrorBody "Product cannot be deleted because it is associated with an order item.";
             status := HTTP_405_METHOD_NOT_ALLOWED |}, s)
    else
      Ok ({| body := NoBody; status := HTTP_204_NO_CONTENT |}, Product_delete s pk)).

End ProductViewSet.

Module CollectionViewSet.

(** [delete(self, request, pk)]: delete a collection. *)
Definition delete (s : Store) (pk : Z) : Response * Store :=
  respond s (
    collection ← get_object_or_404 (collections s) pk;
    if decide (products_count s pk > 0) then
      Ok ({| body := ErrorBody "Collection cannot be deleted because it includes one or more products.";
             status := HTTP_405_METHOD_NOT_ALLOWED |}, s)
    else
      Ok ({| body := NoBody; status := HTTP_204_NO_CONTENT |}, Collection_delete s pk)).

End CollectionViewSet.

Module CartItemViewSet.

Inductive Method := GET | POST | PATCH | DELETE | PUT.

Inductive SerializerClass :=
| AddCartItemSerializer_class
| UpdateCartItemSerializer_class
| CartItemSerializer_class.

Definition http_method_names : list Method := [GET; POST; PATCH; DELETE].

Definition get_serializer_class (method : Method) : SerializerClass :=
  match method with
  | POST => AddCartItemSerializer_class
  | PATCH => UpdateCartItemSerializer_class
  | _ => CartItemSerializer_class
  end.

(** [CartItem.objects.filter(cart_id=self.kwargs['cart_pk'])] *)
Definition get_queryset (s : Store) (cart_pk : UUID) : gmap Z CartItem :=
  filter (λ kv, cartitem_cart kv.2 = cart_pk) (cartitems s).

(** [get_object] of the generic views: the row of the queryset with the
    key of the path, or 404. *)
Definition get_object (s : Store) (cart_pk : UUID) (pk : Z) : Result CartItem :=
  get_object_or_404 (get_queryset s cart_pk) pk.

(** The actions below are those the class inherits from [ModelViewSet],
    with the queryset, serializer class and context the class gives them. *)

(** POST [/carts/{cart_pk}/items/], the [create] of [CreateModelMixin]:
    [is_valid(raise_exception=True)] of [AddCartItemSerializer], [save],
    and the representation of the saved item with status 201. *)
Definition create (s : Store) (cart_pk : UUID) (data : Data) : Response * Store :=
  respond s (
    vd ← AddCartItemSerializer.is_valid s data;
    '(_, item, s') ← AddCartItemSerializer.save s cart_pk vd;
    Ok (match AddCartItemSerializer.data item with
        | Ok representation => {| body := representation; status := HTTP_201_CREATED |}
        | Raise e => exception_response e
        end, s')).

(** PATCH [/carts/{cart_pk}/items/{pk}/]: validate with
    [UpdateCartItemSerializer], then update the instance. *)
Definition partial_update (s : Store) (cart_pk : UUID) (pk : Z) (data : Data)
  : Response * Store :=
  respond s (
    instance ← get_object s cart_pk pk;
    vd ← UpdateCartItemSerializer.is_valid data;
    let '(instance', s') := UpdateCartItemSerializer.save s pk instance vd in
    Ok ({| body := FieldsBody [("quantity", cartitem_quantity instance')];
           status := HTTP_200_OK |}, s')).

(** DELETE [/carts/{cart_pk}/items/{pk}/] *)
Definition destroy (s : Store) (cart_pk : UUID) (pk : Z) : Response * Store :=
  respond s (
    _ ← get_object s cart_pk pk;
    Ok ({| body := NoBody; status := HTTP_204_NO_CONTENT |}, CartItem_delete s pk)).

End CartItemViewSet.

(** The create, retrieve and destroy actions of the mixins of [CartViewSet].
    Its serializer class, [CartSerializer], declares no [Meta] either. *)
Module CartViewSet.

(** POST [/carts/], the [create] of [CreateModelMixin]: as for cart items,
    validation comes first. *)
Definition create (s : Store) (id : UUID) : Response * Store :=
  respond s (
    _ ← CartSerializer.is_valid;
    s' ← Cart_objects_create s id;
    Ok (match CartSerializer.data s' id with
        | Ok representation => {| body := representation; status := HTTP_201_CREATED |}
        | Raise e => exception_response e
        end, s')).

(** GET [/carts/{id}/], the [retrieve] of [RetrieveModelMixin]:
    [get_object], then [serializer.data]. *)
Definition retrieve (s : Store) (id : UUID) : Response * Store :=
  respond s (
    if decide (id ∈ carts s) then
      representation ← CartSerializer.data s id;
      Ok ({| body := representation; status := HTTP_200_OK |}, s)
    else Raise Http404).

(** DELETE [/carts/{id}/] *)
Definition destroy (s : Store) (id : UUID) : Response * Store :=
  respond s (
    if decide (id ∈ carts s) then
      Ok ({| body := NoBody; status := HTTP_204_NO_CONTENT |}, Cart_delete s id)
    else Raise Http404).

End CartViewSet.

(** ** Sequences of cart operations *)

(** The requests on carts and their items, and [SaveItem]: the use of
    [AddCartItemSerializer] on its own, on a product id that has passed
    [validate_product_id] and a quantity that has passed the validator of
    its field. *)
Inductive CartOp :=
| CreateCart (id : UUID)
| AddItem (cart : UUID) (data : Data)
| SaveItem (cart : UUID) (product_id quantity : Z)
| UpdateItem (cart : UUID) (pk : Z) (data : Data)
| RemoveItem (cart : UUID) (pk : Z)
| DeleteCart (id : UUID).

(** The store after one request. *)
Definition run_op (s : Store) (op : CartOp) : Store :=
  match op with
  | CreateCart id => (CartViewSet.create s id).2
  | AddItem cart data => (CartItemViewSet.create s cart data).2
  | SaveItem cart product_id quantity =>
      match p ← AddCartItemSerializer.validate_product_id s product_id;
            q ← validate_quantity quantity;
            AddCartItemSerializer.save s cart
              {| AddCartItemSerializer.product_id := p;
                 AddCartItemSerializer.quantity := q |} with
      | Ok (_, _, s') => s'
      | Raise _ => s
      end
  | UpdateItem cart pk data => (CartItemViewSet.partial_update s cart pk data).2
  | RemoveItem cart pk => (CartItemViewSet.destroy s cart pk).2
  | DeleteCart id => (CartViewSet.destroy s id).2
  end.

(** Requests handled one after the other. *)
Definition run_ops (s : Store) (ops : list CartOp) : Store := fold_left run_op ops s.

(** ** Properties stated about the store *)

(** No two rows of the table have the same cart and product. *)
Definition unique_items (m : gmap Z CartItem) : Prop :=
  ∀ k1 k2 i1 i2,
    m !! k1 = Some i1 → m !! k2 = Some i2 →
    cartitem_cart i1 = cartitem_cart i2 →
    cartitem_product i1 = cartitem_product i2 →
    k1 = k2.

Definition one_row_per_cart_product (s : Store) : Prop := unique_items (cartitems s).

(** The value of a decimal in units of [10^E], for [E] at most its exponent. *)
Definition units (E : Z) (d : Decimal.t) : Z :=
  Decimal.signed d * 10 ^ (Decimal.exp d - E).

Definition sumZ (l : list Z) : Z := foldr Z.add 0 l.

(** A cart line: the quantity of an item and the unit price of its product. *)
Definition line_total (l : Z * Decimal.t) : PyNum := py_mul (PyInt l.1) (PyDec l.2).

Definition line_units (E : Z) (l : Z * Decimal.t) : Z := l.1 * units E l.2.

(** The quantity and the price are not negative, and the price is a
    multiple of [10^E]. *)
Definition line_ok (E : Z) (l : Z * Decimal.t) : Prop :=
  0 ≤ l.1 ∧ Decimal.sign l.2 = false ∧ E ≤ Decimal.exp l.2.

(** The unit price a cart item refers to. *)
Definition unit_price_of (s : Store) (item : CartItem) : Decimal.t :=
  match products s !! cartitem_product item with
  | Some p => product_unit_price p
  | None => Decimal.of_int 0
  end.

(** The lines of a list of rows of the item table. *)
Definition rows_lines (s : Store) (rows : list (Z * CartItem)) : list (Z * Decimal.t) :=
  map (λ kv : Z * CartItem, (cartitem_quantity kv.2, unit_price_of s kv.2)) rows.

Definition cart_lines (s : Store) (cart : UUID) : list (Z * Decimal.t) :=
  rows_lines s (cart_items s cart).

(** Quantity times unit price for a row of the item table. *)
Definition row_total (s : Store) (kv : Z * CartItem) : PyNum :=
  py_mul (PyInt (cartitem_quantity kv.2)) (PyDec (unit_price_of s kv.2)).

(** [rows] lists the rows of the item table that belong to [cart], all of
    them and each once, in some order. *)
Definition rows_of_cart (s : Store) (cart : UUID) (rows : list (Z * CartItem)) : Prop :=
  NoDup rows.*1
  ∧ ∀ k item, (k, item) ∈ rows ↔ cartitems s !! k = Some item ∧ cartitem_cart item = cart.

(** The sum over the items of a cart of quantity times unit price, as a
    rational number. *)
Definition exact_total (s : Store) (cart : UUID) : Q :=
  foldr Qplus 0%Q
        (map (λ l : Z * Decimal.t, (inject_Z l.1 * Decimal.value l.2)%Q) (cart_lines s cart)).

(** ** The rest of the serializers and views *)

Module ReviewSerializer.

(** The writable fields of a review: [name] and [description]. *)
Record validated_data := { name : string; description : string }.

(** [Review.objects.create(product_id=product_id, **validated_data)], with
    [product_id] taken from the serializer context. As for cart items, the
    store refuses a row whose product does not exist. The date the store
    stamps on the new row is not part of the model. *)
Definition create (s : Store) (product_id : Z) (vd : validated_data)
  : Result (Z * Review * Store) :=
  if decide (is_Some (products s !! product_id)) then
    let pk := next_pk (reviews_seq s) (reviews s) in
    let review := {| review_product := product_id; review_name := name vd;
                     review_description := description vd |} in
    Ok (pk, review,
        {| collections := collections s; products := products s;
           orderitems := orderitems s; reviews := <[pk := review]> (reviews s);
           carts := carts s; cartitems := cartitems s;
           reviews_seq := pk; cartitems_seq := cartitems_seq s |})
  else Raise IntegrityError.

End ReviewSerializer.

Module ReviewViewSet.

(** [Review.objects.filter(product_id=self.kwargs['product_pk'])] *)
Definition get_queryset (s : Store) (product_pk : Z) : gmap Z Review :=
  filter (λ kv, review_product kv.2 = product_pk) (reviews s).



End ReviewViewSet.

(** [Collection.objects.annotate(products_count=Count('products')).all()]:
    every collection with the number of its products. *)
Definition CollectionViewSet_queryset (s : Store) : gmap Z (Collection * Z) :=
  map_imap (λ pk collection, Some (collection, products_count s pk)) (collections s).

Module DefaultPagination.

Definition page_size : nat := 10.

(** [Paginator.num_pages]: the pages needed for [count] results; an empty
    listing has one, empty, page. *)
Definition num_pages (count : nat) : nat :=
  if decide (count = 0)%nat then 1%nat else ((count + page_size - 1) / page_size)%nat.

(** [paginate_queryset]: the results of page [page], numbered from 1; a
    page number out of range is answered 404. *)
Definition paginate_queryset {A} (queryset : list A) (page : nat) : Result (list A) :=
  if decide (1 ≤ page ≤ num_pages (length queryset))%nat
  then Ok (take page_size (drop ((page - 1) * page_size) queryset))
  else Raise Http404.

End DefaultPagination.

(** The cart in the path of a request. *)
Definition op_cart (op : CartOp) : UUID :=
  match op with
  | CreateCart id => id
  | AddItem cart _ => cart
  | SaveItem cart _ _ => cart
  | UpdateItem cart _ _ => cart
  | RemoveItem cart _ => cart
  | DeleteCart id => id
  end.

(** Every cart item has a quantity of at least one. *)
Definition positive_quantities (s : Store) : Prop :=
  ∀ k item, cartitems s !! k = Some item → 1 ≤ cartitem_quantity item.

(** Every cart item refers to a product of the store. *)
Definition items_have_products (s : Store) : Prop :=
  ∀ k item, cartitems s !! k = Some item → is_Some (products s !! cartitem_product item).

(** The products are those of [s0] and every cart item satisfies [Q]. *)
Definition rows_keep (s0 : Store) (Q : CartItem → Prop) (s : Store) : Prop :=
  products s = products s0 ∧ ∀ k item, cartitems s !! k = Some item → Q item.

(** The sum of quantity times price coefficient over cart lines. *)
Definition lines_coeff (lines : list (Z * Decimal.t)) : N :=
  foldr N.add 0%N (map (λ l : Z * Decimal.t, (Z.to_N l.1 * Decimal.coeff l.2)%N) lines).

(** The sum of [products_count] over the annotated collections. *)
Definition products_count_sum (s : Store) : Z :=
  map_fold (λ _ (row : Collection * Z) acc, row.2 + acc) 0 (CollectionViewSet_queryset s).

(** The number of products of collection [pk] in a table of products, and
    the sum of these numbers over a table of collections. *)
Definition count_in (pk : Z) (prods : gmap Z Product) : Z :=
  Z.of_nat (size (filter (λ kv : Z * Product, product_collection kv.2 = pk) prods)).

Definition count_total (cols : gmap Z Collection) (prods : gmap Z Product) : Z :=
  map_fold (λ pk (_ : Collection) acc, count_in pk prods + acc) 0 cols.

(** ** A small shop *)

Definition tea : Product :=
  {| product_title := "Tea"; product_description := ""; product_slug := "tea";
     product_inventory := 7; product_unit_price := Decimal.mk false 1000 (-2);
     product_collection := 1 |}.

Definition drinks : Collection := {| collection_title := "Drinks" |}.

(** One collection, one product at 10.00, one cart without items. *)
Definition shop : Store :=
  {| collections := {[ 1 := drinks ]}; products := {[ 1 := tea ]};
     orderitems := ∅; reviews := ∅; carts := {[ 5%N ]}; cartitems := ∅;
     reviews_seq := 0; cartitems_seq := 0 |}.

(** The shop after the product was ordered once. *)
Definition shop_sold : Store :=
  {| collections := collections shop; products := products shop;
     orderitems := {[ 1 := {| orderitem_product := 1 |} ]};
     reviews := ∅; carts := carts shop; cartitems := ∅;
     reviews_seq := 0; cartitems_seq := 0 |}.

Definition two_teas : CartItem :=
  {| cartitem_cart := 5%N; cartitem_product := 1; cartitem_quantity := 2 |}.

(** The shop with two units of the product in the cart. *)
Definition shop_cart : Store :=
  {| collections := collections shop; products := products shop;
     orderitems := ∅; reviews := ∅; carts := carts shop;
     cartitems := {[ 1 := two_teas ]};
     reviews_seq := 0; cartitems_seq := 1 |}.

Definition add_data (product_id quantity : Z) : Data :=
  {[ "product_id" := product_id; "quantity" := quantity ]}.

Definition snacks : Collection := {| collection_title := "Snacks" |}.

(** The shop with a second collection, which has no product. *)
Definition shop_snacks : Store :=
  {| collections := {[ 1 := drinks; 2 := snacks ]}; products := products shop;
     orderitems := ∅; reviews := ∅; carts := carts shop; cartitems := ∅;
     reviews_seq := 0; cartitems_seq := 0 |}.

Definition coffee : Product :=
  {| product_title := "Coffee"; product_description := ""; product_slug := "coffee";
     product_inventory := 3; product_unit_price := Decimal.mk false 250 (-2);
     product_collection := 1 |}.

(** Two products, at 10.00 and 2.50, and two carts without items. *)
Definition market : Store :=
  {| collections := {[ 1 := drinks ]}; products := {[ 1 := tea; 2 := coffee ]};
     orderitems := ∅; reviews := ∅; carts := {[ 5%N; 6%N ]}; cartitems := ∅;
     reviews_seq := 0; cartitems_seq := 0 |}.

Definition three_coffees : CartItem :=
  {| cartitem_cart := 5%N; cartitem_product := 2; cartitem_quantity := 3 |}.

Definition four_teas : CartItem :=
  {| cartitem_cart := 6%N; cartitem_product := 1; cartitem_quantity := 4 |}.

(** The market with two rows in cart 5 and one row in cart 6. *)
Definition market_carts : Store :=
  {| collections := collections market; products := products market;
     orderitems := ∅; reviews := ∅; carts := carts market;
     cartitems := {[ 1 := two_teas; 2 := three_coffees; 3 := four_teas ]};
     reviews_seq := 0; cartitems_seq := 3 |}.

(** A lookup [Hk] in the item table of [market_carts] finds one of its
    three rows. *)
Ltac a_row Hk :=
  unfold market_carts in Hk; cbn [cartitems] in Hk;
  apply lookup_insert_Some in Hk as [[<- <-]|[_ Hk]];
  [|apply lookup_insert_Some in Hk as [[<- <-]|[_ Hk]];
    [|apply lookup_singleton_Some in Hk as [<- <-]]].

(** The cart of [shop_cart] with its row written a second time under
    another key. *)
Definition shop_twice : Store := CartItem_insert shop_cart 2 two_teas.

(** A lookup [Hk] in an empty table finds nothing. *)
Ltac no_row Hk := cbn in Hk; by rewrite lookup_empty in Hk.

(** * Proofs *)

(** ** Filtered tables *)

Section filtered.
Context {A : Type} (P : Z * A → Prop) `{!∀ x, Decision (P x)}.
Implicit Types m : gmap Z A.

Lemma filter_none_empty m :
  (∀ k x, m !! k = Some x → ¬ P (k, x)) → filter P m = ∅.
Proof.
  intros Hall. apply map_eq. intros k.
  rewrite lookup_empty. apply map_lookup_filter_None. right.
  intros x Hx. by apply Hall.
Qed.

Lemma size_filter_zero m :
  (∀ k x, m !! k = Some x → ¬ P (k, x)) → size (filter P m) = 0%nat.
Proof. intros Hall. by apply map_size_empty_iff, filter_none_empty. Qed.

Lemma size_filter_pos m k x :
  m !! k = Some x → P (k, x) → (0 < size (filter P m))%nat.
Proof.
  intros Hk HP.
  assert (filter P m !! k = Some x) as Hf by (by apply map_lookup_filter_Some).
  destruct (size (filter P m)) eqn:E; [|lia].
  apply map_size_empty_iff in E. rewrite E in Hf. by rewrite lookup_empty in Hf.
Qed.
End filtered.

Lemma next_pk_fresh {A} (seq : Z) (m : gmap Z A) : m !! next_pk seq m = None.
Proof.
  destruct (m !! next_pk seq m) as [x|] eqn:E; [exfalso|done].
  apply elem_of_map_to_list in E.
  assert (Hle : ∀ l : list (Z * A),
             (next_pk seq m, x) ∈ l → next_pk seq m ≤ foldr Z.max 0 (map fst l)).
  { induction l as [|[k y] l IH]; intros Hin.
    - by apply not_elem_of_nil in Hin.
    - apply elem_of_cons in Hin as [Heq|Hin]; simpl.
      + inversion Heq; subst. lia.
      + specialize (IH Hin). lia. }
  specialize (Hle _ E). unfold next_pk in Hle. lia.
Qed.

Lemma next_pk_above {A} (seq : Z) (m : gmap Z A) : seq < next_pk seq m.
Proof. unfold next_pk. lia. Qed.

Lemma mapR_Ok {A B} (f : A → Result B) (g : A → B) (l : list A) :
  Forall (λ x, f x = Ok (g x)) l → mapR f l = Ok (map g l).
Proof.
  induction 1 as [|x l Hx _ IH]; simpl; [done|]. rewrite Hx. simpl. by rewrite IH.
Qed.

Lemma elem_of_cart_items (s : Store) (cart : UUID) (k : Z) (item : CartItem) :
  (k, item) ∈ cart_items s cart ↔ cartitems s !! k = Some item ∧ cartitem_cart item = cart.
Proof.
  unfold cart_items. by rewrite elem_of_map_to_list, map_lookup_filter_Some.
Qed.

Lemma cart_items_nil (s : Store) (cart : UUID) :
  (∀ k item, cartitems s !! k = Some item → cartitem_cart item ≠ cart) →
  cart_items s cart = [].
Proof.
  intros Hnone. unfold cart_items.
  apply map_to_list_empty_iff, filter_none_empty.
  intros k item Hk. simpl. by apply Hnone with k.
Qed.

(** ** Decimal arithmetic within the precision *)

Lemma ndigits_aux_le (fuel : nat) : ∀ n p : N,
  (n < 10 ^ N.succ p)%N → (Decimal.ndigits_aux fuel n ≤ N.succ p)%N.
Proof.
  induction fuel as [|fuel IH]; intros n p Hn; simpl; [lia|].
  destruct (n <? 10)%N eqn:E; [lia|].
  apply N.ltb_ge in E.
  destruct (N.eq_dec p 0%N) as [->|Hp].
  { change (10 ^ N.succ 0)%N with 10%N in Hn. lia. }
  replace p with (N.succ (N.pred p)) in * by lia.
  set (p' := N.pred p) in *.
  assert (n / 10 < 10 ^ N.succ p')%N.
  { apply N.Div0.div_lt_upper_bound. by rewrite <- N.pow_succ_r'. }
  specialize (IH (n / 10)%N p'). lia.
Qed.

(** A coefficient of at most [prec] digits is not rounded. *)
Lemma fix_exact (d : Decimal.t) :
  (Decimal.coeff d < 10 ^ Decimal.prec)%N → Decimal.fix_ d = d.
Proof.
  intros Hc. unfold Decimal.fix_.
  destruct (Decimal.coeff d =? 0)%N; [done|].
  assert (Decimal.ndigits (Decimal.coeff d) ≤ Decimal.prec)%N as Hn.
  { unfold Decimal.ndigits. change Decimal.prec with (N.succ 27) in *.
    by apply ndigits_aux_le. }
  apply N.leb_le in Hn. by rewrite Hn.
Qed.

(** [ndigits] counts the decimal digits: the fuel it starts with suffices. *)
Lemma ndigits_aux_spec (fuel : nat) : ∀ n : N,
  (n < 2 ^ N.of_nat fuel)%N → (0 < n)%N →
  let d := Decimal.ndigits_aux fuel n in
  (1 ≤ d ∧ 10 ^ (d - 1) ≤ n < 10 ^ d)%N.
Proof.
  induction fuel as [|fuel IH]; intros n Hn Hpos.
  { change (2 ^ N.of_nat 0)%N with 1%N in Hn. lia. }
  simpl. destruct (n <? 10)%N eqn:E.
  { apply N.ltb_lt in E. change (10 ^ (1 - 1))%N with 1%N. change (10 ^ 1)%N with 10%N. lia. }
  apply N.ltb_ge in E.
  assert (Hm : (n / 10 < 2 ^ N.of_nat fuel)%N).
  { apply N.Div0.div_lt_upper_bound.
    rewrite Nat2N.inj_succ, N.pow_succ_r' in Hn. lia. }
  assert (Hm0 : (0 < n / 10)%N).
  { apply N.div_str_pos. lia. }
  destruct (IH (n / 10)%N Hm Hm0) as (Hd & Hlo & Hhi).
  set (d := Decimal.ndigits_aux fuel (n / 10)) in *.
  pose proof (N.Div0.div_mod n 10) as Hdiv.
  pose proof (N.mod_upper_bound n 10 ltac:(lia)) as Hmod.
  replace (1 + d - 1)%N with (N.succ (d - 1)) by lia.
  replace (1 + d)%N with (N.succ d) by lia.
  rewrite !N.pow_succ_r'.
  clearbody d. set (A := (10 ^ (d - 1))%N) in *. set (B := (10 ^ d)%N) in *.
  set (m := (n / 10)%N) in *. set (r := (n mod 10)%N) in *.
  clearbody A B m r. lia.
Qed.

Lemma ndigits_spec (n : N) :
  (0 < n)%N →
  (1 ≤ Decimal.ndigits n ∧ 10 ^ (Decimal.ndigits n - 1) ≤ n < 10 ^ Decimal.ndigits n)%N.
Proof.
  intros Hpos. unfold Decimal.ndigits. apply ndigits_aux_spec; [|done].
  rewrite N2Nat.id. apply N.size_gt.
Qed.

(** The rounded quotient is within half a divisor of the dividend. *)
Lemma div_half_even_near (n d : N) :
  (0 < d)%N →
  (2 * (Decimal.div_half_even n d * d) ≤ 2 * n + d
   ∧ 2 * n ≤ 2 * (Decimal.div_half_even n d * d) + d)%N.
Proof.
  intros Hd. unfold Decimal.div_half_even.
  pose proof (N.Div0.div_mod n d) as Hdiv.
  pose proof (N.mod_upper_bound n d ltac:(lia)) as Hmod.
  set (q := (n / d)%N) in *. set (r := (n mod d)%N) in *. clearbody q r.
  destruct (N.compare_spec (2 * r) d) as [Heq|Hlt|Hgt]; [destruct (N.even q)| |]; nia.
Qed.

(** What [_fix] returns for a coefficient of more than [prec] digits: the
    coefficient divided by [10^k], rounded, with the exponent raised by
    [k], where [k] is the number of digits in excess. *)
Lemma fix_rounds (d : Decimal.t) :
  (10 ^ Decimal.prec ≤ Decimal.coeff d)%N →
  let k := (Decimal.ndigits (Decimal.coeff d) - Decimal.prec)%N in
  Decimal.sign (Decimal.fix_ d) = Decimal.sign d
  ∧ Decimal.exp d ≤ Decimal.exp (Decimal.fix_ d)
  ∧ Z.of_N (Decimal.coeff (Decimal.fix_ d)) * 10 ^ (Decimal.exp (Decimal.fix_ d) - Decimal.exp d)
    = Z.of_N (Decimal.div_half_even (Decimal.coeff d) (10 ^ k) * 10 ^ k).
Proof.
  intros Hbig k. unfold Decimal.fix_.
  assert (Hpos : (0 < Decimal.coeff d)%N).
  { assert (0 < 10 ^ Decimal.prec)%N by (by vm_compute). lia. }
  destruct (N.eqb_spec (Decimal.coeff d) 0) as [|_]; [lia|].
  destruct (ndigits_spec _ Hpos) as (H1 & Hlo & Hhi).
  destruct (N.leb_spec (Decimal.ndigits (Decimal.coeff d)) Decimal.prec) as [Hle|Hgt].
  { exfalso. apply (N.pow_le_mono_r 10) in Hle; lia. }
  fold k. set (C := Decimal.div_half_even (Decimal.coeff d) (10 ^ k)).
  destruct (N.eqb_spec C (10 ^ Decimal.prec)) as [HC|HC]; simpl.
  - split; [done|]. split; [lia|].
    replace (Decimal.exp d + Z.of_N k + 1 - Decimal.exp d) with (Z.of_N k + 1) by lia.
    rewrite HC, Z.pow_add_r, N2Z.inj_mul, !N2Z.inj_pow by lia.
    change (Z.of_N (10 ^ Decimal.prec / 10)) with (10 ^ 27).
    change (Z.of_N 10 ^ Z.of_N Decimal.prec) with (10 ^ 27 * 10 ^ 1).
    change (Z.of_N 10) with 10. ring.
  - split; [done|]. split; [lia|].
    replace (Decimal.exp d + Z.of_N k - Decimal.exp d) with (Z.of_N k) by lia.
    by rewrite N2Z.inj_mul, N2Z.inj_pow.
Qed.

Lemma units_nonneg (E : Z) (d : Decimal.t) :
  Decimal.sign d = false → 0 ≤ units E d.
Proof.
  intros Hs. unfold units, Decimal.signed. rewrite Hs.
  apply Z.mul_nonneg_nonneg; [lia|]. apply Z.pow_nonneg. lia.
Qed.

Lemma sum_units_nonneg (E : Z) (ds : list Decimal.t) :
  Forall (λ d, Decimal.sign d = false ∧ E ≤ Decimal.exp d) ds →
  0 ≤ sumZ (map (units E) ds).
Proof.
  induction 1 as [|d ds [Hd _] _ IH]; simpl; [lia|].
  pose proof (units_nonneg E d Hd). lia.
Qed.

Lemma value_units (E : Z) (d : Decimal.t) :
  E ≤ Decimal.exp d →
  (Decimal.value d == inject_Z (units E d) * Qpower (10 # 1) E)%Q.
Proof.
  intros HE. unfold Decimal.value, units.
  rewrite inject_Z_mult, Zpower_Qpower by lia.
  change (inject_Z 10) with (10 # 1)%Q.
  rewrite <- Qmult_assoc, <- Qpower_plus by done.
  replace (Decimal.exp d - E + E) with (Decimal.exp d) by lia. reflexivity.
Qed.

Lemma value_of_int (q : Z) : (Decimal.value (Decimal.of_int q) == inject_Z q)%Q.
Proof.
  unfold Decimal.value, Decimal.of_int, Decimal.signed. simpl.
  replace (if q <? 0 then - Z.of_N (Z.abs_N q) else Z.of_N (Z.abs_N q)) with q.
  - ring.
  - destruct (Z.ltb_spec q 0); lia.
Qed.

Lemma mul_exact_value (a b : Decimal.t) :
  (Decimal.coeff a * Decimal.coeff b < 10 ^ Decimal.prec)%N →
  (Decimal.value (Decimal.mul a b) == Decimal.value a * Decimal.value b)%Q.
Proof.
  intros Hlt. unfold Decimal.mul. rewrite fix_exact by done.
  unfold Decimal.value. simpl. rewrite Qpower_plus by done.
  assert (Hs : Decimal.signed
                 {| Decimal.sign := xorb (Decimal.sign a) (Decimal.sign b);
                    Decimal.coeff := Decimal.coeff a * Decimal.coeff b;
                    Decimal.exp := Decimal.exp a + Decimal.exp b |}
               = Decimal.signed a * Decimal.signed b).
  { unfold Decimal.signed. simpl. rewrite N2Z.inj_mul.
    destruct (Decimal.sign a), (Decimal.sign b); simpl; lia. }
  rewrite Hs, inject_Z_mult. ring.
Qed.

Lemma mul_of_int_exact (q : Z) (p : Decimal.t) :
  0 ≤ q → Decimal.sign p = false →
  q * Z.of_N (Decimal.coeff p) < 10 ^ 28 →
  Decimal.mul (Decimal.of_int q) p =
    Decimal.mk false (Z.to_N q * Decimal.coeff p) (Decimal.exp p).
Proof.
  intros Hq Hs Hb. unfold Decimal.mul, Decimal.of_int. simpl. rewrite Hs.
  replace (q <? 0) with false by (symmetry; apply Z.ltb_ge; lia).
  replace (Z.abs_N q) with (Z.to_N q) by lia. simpl.
  apply fix_exact. simpl.
  apply N2Z.inj_lt. rewrite N2Z.inj_mul, Z2N.id by done.
  by change (Z.of_N (10 ^ Decimal.prec)) with (10 ^ 28).
Qed.

(** Adding two non-negative decimals is exact while the sum has at most
    [prec] digits at the scale [10^E]. *)
Lemma add_exact (E : Z) (a b : Decimal.t) :
  Decimal.sign a = false → Decimal.sign b = false →
  E ≤ Decimal.exp a → E ≤ Decimal.exp b →
  units E a + units E b < 10 ^ 28 →
  Decimal.sign (Decimal.add a b) = false
  ∧ E ≤ Decimal.exp (Decimal.add a b)
  ∧ units E (Decimal.add a b) = units E a + units E b.
Proof.
  intros Ha Hb Hea Heb Hlt. unfold Decimal.add.
  set (e := Z.min (Decimal.exp a) (Decimal.exp b)).
  set (sm := Decimal.signed a * 10 ^ (Decimal.exp a - e) +
             Decimal.signed b * 10 ^ (Decimal.exp b - e)).
  assert (Hsa : 0 ≤ Decimal.signed a) by (unfold Decimal.signed; rewrite Ha; lia).
  assert (Hsb : 0 ≤ Decimal.signed b) by (unfold Decimal.signed; rewrite Hb; lia).
  assert (Hsm : 0 ≤ sm).
  { unfold sm. apply Z.add_nonneg_nonneg; apply Z.mul_nonneg_nonneg; try done;
      apply Z.pow_nonneg; lia. }
  assert (Hunits : sm * 10 ^ (e - E) = units E a + units E b).
  { unfold sm, units. rewrite Z.mul_add_distr_r, <- !Z.mul_assoc, <- !Z.pow_add_r by lia.
    do 2 f_equal; f_equal; lia. }
  assert (Hsign : (if sm =? 0 then Decimal.sign a && Decimal.sign b else sm <? 0) = false).
  { rewrite Ha. simpl. destruct (sm =? 0); [done|]. apply Z.ltb_ge. lia. }
  rewrite Hsign.
  assert (Hsmall : sm < 10 ^ 28).
  { assert (1 ≤ 10 ^ (e - E)) by (apply Z.pow_le_mono_r with (b := 0) (c := e - E); lia).
    nia. }
  rewrite fix_exact.
  2:{ simpl. apply N2Z.inj_lt. rewrite N2Z.inj_abs_N, Z.abs_eq by done.
      by change (Z.of_N (10 ^ Decimal.prec)) with (10 ^ 28). }
  simpl. split; [done|]. split; [lia|].
  unfold units at 1. unfold Decimal.signed. simpl.
  by rewrite N2Z.inj_abs_N, Z.abs_eq.
Qed.

Lemma fold_add_exact (E : Z) (ds : list Decimal.t) : ∀ acc : Decimal.t,
  Decimal.sign acc = false → E ≤ Decimal.exp acc →
  Forall (λ d, Decimal.sign d = false ∧ E ≤ Decimal.exp d) ds →
  units E acc + sumZ (map (units E) ds) < 10 ^ 28 →
  ∃ r, fold_left py_add (map PyDec ds) (PyDec acc) = PyDec r
       ∧ Decimal.sign r = false ∧ E ≤ Decimal.exp r
       ∧ units E r = units E acc + sumZ (map (units E) ds).
Proof.
  induction ds as [|d ds IH]; intros acc Hs He Hall Hlt; simpl in *.
  - exists acc. repeat split; try done. lia.
  - apply Forall_cons in Hall as [[Hd Hed] Hall].
    pose proof (sum_units_nonneg E ds Hall) as Hrest.
    destruct (add_exact E acc d Hs Hd He Hed) as (Hs' & He' & Hu'); [lia|].
    destruct (IH (Decimal.add acc d) Hs' He' Hall) as (r & Hr & Hsr & Her & Hur); [lia|].
    exists r. repeat split; try done. lia.
Qed.

(** ** Cart lines *)

Lemma line_units_nonneg (E : Z) (l : Z * Decimal.t) : line_ok E l → 0 ≤ line_units E l.
Proof.
  intros (Hq & Hs & _). unfold line_units.
  pose proof (units_nonneg E l.2 Hs). lia.
Qed.

Lemma sum_line_units_nonneg (E : Z) (lines : list (Z * Decimal.t)) :
  Forall (line_ok E) lines → 0 ≤ sumZ (map (line_units E) lines).
Proof.
  induction 1 as [|l lines Hl _ IH]; simpl; [lia|].
  pose proof (line_units_nonneg E l Hl). lia.
Qed.

Lemma line_total_exact (E : Z) (l : Z * Decimal.t) :
  line_ok E l → line_units E l < 10 ^ 28 →
  ∃ d, line_total l = PyDec d ∧ Decimal.sign d = false ∧ E ≤ Decimal.exp d
       ∧ units E d = line_units E l.
Proof.
  destruct l as [q p]. intros (Hq & Hs & He) Hlt. unfold line_units, units in Hlt.
  simpl in *.
  assert (Hsigned : Decimal.signed p = Z.of_N (Decimal.coeff p)).
  { unfold Decimal.signed. by rewrite Hs. }
  assert (1 ≤ 10 ^ (Decimal.exp p - E))
    by (apply Z.pow_le_mono_r with (b := 0) (c := Decimal.exp p - E); lia).
  eexists. unfold line_total. simpl. rewrite mul_of_int_exact; try done.
  - split; [reflexivity|]. simpl. split; [done|]. split; [done|].
    unfold line_units, units, Decimal.signed. simpl. rewrite Hs.
    rewrite N2Z.inj_mul, Z2N.id by done. lia.
  - rewrite Hsigned in Hlt. nia.
Qed.

(** The lines of a cart are decimals that [sum] adds without rounding. *)
Lemma lines_as_decimals (E : Z) (lines : list (Z * Decimal.t)) :
  Forall (line_ok E) lines →
  sumZ (map (line_units E) lines) < 10 ^ 28 →
  ∃ ds, map line_total lines = map PyDec ds
        ∧ Forall (λ d, Decimal.sign d = false ∧ E ≤ Decimal.exp d) ds
        ∧ map (units E) ds = map (line_units E) lines.
Proof.
  induction 1 as [|l lines Hl Hall IH]; intros Hlt; simpl in *.
  - by exists [].
  - pose proof (line_units_nonneg E l Hl).
    pose proof (sum_line_units_nonneg E lines Hall).
    destruct (line_total_exact E l Hl) as (d & Hd & Hs & He & Hu); [lia|].
    destruct IH as (ds & Hmap & Hds & Hus); [lia|].
    exists (d :: ds). simpl. rewrite Hd, Hmap, Hu, Hus. split; [done|].
    split; [|done]. by constructor.
Qed.

Lemma py_sum_lines_exact (E : Z) (lines : list (Z * Decimal.t)) :
  E ≤ 0 →
  Forall (line_ok E) lines →
  sumZ (map (line_units E) lines) < 10 ^ 28 →
  (py_value (py_sum (map line_total lines))
   == inject_Z (sumZ (map (line_units E) lines)) * Qpower (10 # 1) E)%Q.
Proof.
  intros HE Hall Hlt.
  destruct (lines_as_decimals E lines Hall Hlt) as (ds & Hmap & Hds & Hus).
  rewrite Hmap, <- Hus. rewrite <- Hus in Hlt.
  destruct ds as [|d ds]; unfold py_sum; simpl.
  - ring.
  - apply Forall_cons in Hds as [[Hd Hed] Hds]. simpl in Hlt.
    assert (H0 : units E (Decimal.of_int 0) = 0) by done.
    pose proof (sum_units_nonneg E ds Hds) as Hrest.
    destruct (add_exact E (Decimal.of_int 0) d eq_refl Hd HE Hed) as (Hs' & He' & Hu');
      [lia|].
    destruct (fold_add_exact E ds (Decimal.add (Decimal.of_int 0) d) Hs' He' Hds)
      as (r & Hr & Hsr & Her & Hur); [lia|].
    rewrite Hr. simpl. rewrite (value_units E r Her), Hur, Hu', H0. reflexivity.
Qed.

Lemma exact_sum_units (E : Z) (lines : list (Z * Decimal.t)) :
  Forall (line_ok E) lines →
  (foldr Qplus 0 (map (λ l : Z * Decimal.t, inject_Z l.1 * Decimal.value l.2) lines)
   == inject_Z (sumZ (map (line_units E) lines)) * Qpower (10 # 1) E)%Q.
Proof.
  induction 1 as [|l lines (Hq & Hs & He) _ IH]; simpl.
  - ring.
  - rewrite IH, (value_units E l.2 He). unfold line_units.
    rewrite inject_Z_plus, inject_Z_mult. ring.
Qed.

(** Within the precision the total that [sum] computes is the exact one. *)
Lemma cart_total_exact (s : Store) (cart : UUID) (E : Z) :
  E ≤ 0 →
  Forall (line_ok E) (cart_lines s cart) →
  (exact_total s cart < Qpower (10 # 1) (28 + E))%Q →
  (py_value (py_sum (map line_total (cart_lines s cart))) == exact_total s cart)%Q.
Proof.
  intros HE Hok Hlt.
  unfold exact_total in *. rewrite (exact_sum_units E _ Hok) in Hlt |- *.
  apply py_sum_lines_exact; try done.
  rewrite Qpower_plus in Hlt by done.
  apply Qmult_lt_r in Hlt; [|by apply Qpower_0_lt].
  rewrite Zlt_Qlt. exact Hlt.
Qed.

(** ** Derived values of the serializers *)

(** The literal [1.1] is the double [4953959590107546 * 2^-52], the one
    nearest to 11/10: it is less than half a unit in the last place away. *)
Lemma float_1_1_nearest :
  float_1_1 = Float.mk false 4953959590107546 (-52)
  ∧ 2 ^ 52 ≤ 4953959590107546 < 2 ^ 53
  ∧ 2 * Z.abs (10 * 4953959590107546 - 11 * 2 ^ 52) < 10.
Proof. by vm_compute. Qed.

(** [Decimal(1.1)] is the exact value of that double, not 11/10. *)
Lemma Decimal_of_float_1_1 :
  Decimal_from_float float_1_1 =
    Decimal.mk false 1100000000000000088817841970012523233890533447265625 (-51).
Proof. by vm_compute. Qed.

(** C4 (the code departs from the claim): for a product priced 10.00,
    [calculate_tax] returns 11.00000000000000088817841970, the product with
    the double nearest to 1.1 rounded to 28 digits, which is not 11/10 of
    the unit price. *)
Theorem calculate_tax_uses_float_constant :
  ProductSerializer.calculate_tax tea = Decimal.mk false 1100000000000000088817841970 (-26)
  ∧ ¬ (Decimal.value (ProductSerializer.calculate_tax tea)
       == Decimal.value (product_unit_price tea) * (11 # 10))%Q.
Proof.
  split; [by vm_compute|]. vm_compute. discriminate.
Qed.

(** For every product with a non-zero price the result of [calculate_tax]
    differs from 11/10 of the unit price: the excess of the double over 1.1
    is far above the rounding of the 28-digit context. *)
Theorem calculate_tax_never_exact (p : Product) :
  Decimal.coeff (product_unit_price p) ≠ 0%N →
  ¬ (Decimal.value (ProductSerializer.calculate_tax p)
     == Decimal.value (product_unit_price p) * (11 # 10))%Q.
Proof.
  destruct p as [title description slug inventory [s c e] collection].
  cbn [product_unit_price Decimal.coeff]. intros Hc.
  unfold ProductSerializer.calculate_tax. rewrite Decimal_of_float_1_1.
  unfold Decimal.mul. cbn [product_unit_price Decimal.sign Decimal.coeff Decimal.exp].
  set (D := 1100000000000000088817841970012523233890533447265625%N).
  set (x := Decimal.mk (xorb s false) (c * D) (e + -51)).
  assert (Hbig : (10 ^ Decimal.prec ≤ Decimal.coeff x)%N).
  { simpl. change (10 ^ Decimal.prec)%N with 10000000000000000000000000000%N.
    unfold D. lia. }
  destruct (fix_rounds x Hbig) as (Hs & He & Hcoef).
  assert (Hpos : (0 < c * D)%N) by (unfold D; lia).
  destruct (ndigits_spec (c * D) Hpos) as (_ & Hlo & Hhi).
  cbn [x Decimal.sign Decimal.coeff Decimal.exp] in Hcoef, He, Hs.
  set (n := Decimal.ndigits (c * D)) in *.
  assert (Hn : (51 < n)%N).
  { apply (N.pow_lt_mono_r_iff 10); [lia|].
    eapply N.le_lt_trans; [|exact Hhi].
    change (10 ^ 51)%N with 1000000000000000000000000000000000000000000000000000%N.
    unfold D. lia. }
  set (k := (n - Decimal.prec)%N) in *.
  assert (Hk : (10 ^ (n - 1) = 10 ^ k * 10 ^ 27)%N).
  { rewrite <- N.pow_add_r. f_equal. unfold k. change Decimal.prec with 28%N. lia. }
  rewrite Hk in Hlo.
  assert (HT : (0 < 10 ^ k)%N) by (apply N.neq_0_lt_0, N.pow_nonzero; lia).
  destruct (div_half_even_near (c * D) (10 ^ k) HT) as [_ Hnear].
  set (M := (Decimal.div_half_even (c * D) (10 ^ k) * 10 ^ k)%N) in *.
  set (T := (10 ^ k)%N) in *.
  set (r := Decimal.fix_ x) in *.
  intros Heq.
  rewrite (value_units (e + -51) r He) in Heq.
  assert (Hrhs : (Decimal.value (Decimal.mk s c e) * (11 # 10)
                  == inject_Z (Decimal.signed (Decimal.mk s c e)
                               * 1100000000000000000000000000000000000000000000000000)
                     * Qpower (10 # 1) (e + -51))%Q).
  { unfold Decimal.value. cbn [Decimal.exp].
    assert (Hp : ((10 # 1) ^ e == (10 # 1) ^ (e + -51) * (10 # 1) ^ 51)%Q).
    { rewrite <- Qpower_plus by done. by replace (e + -51 + 51) with e by lia. }
    assert (HK : ((10 # 1) ^ 51 * (11 # 10)
                  == inject_Z 1100000000000000000000000000000000000000000000000000)%Q)
      by (by vm_compute).
    rewrite Hp, inject_Z_mult, <- HK. ring. }
  rewrite Hrhs in Heq.
  apply Qmult_inj_r in Heq; [|by apply Qpower_not_0].
  rewrite inject_Z_injective in Heq.
  unfold units, Decimal.signed in Heq. rewrite Hs in Heq. simpl in Heq.
  assert (Hflat : Z.of_N M = Z.of_N c * 1100000000000000000000000000000000000000000000000000).
  { rewrite <- Hcoef. destruct s; simpl in Heq; lia. }
  unfold D in *. clearbody M T. lia.
Qed.

(** With the decimal constant [Decimal('1.1')] the product is 11/10 of the
    price, exactly, for every price of at most 26 digits. *)
Lemma mul_decimal_1_1_exact (price : Decimal.t) :
  (Decimal.coeff price * 11 < 10 ^ Decimal.prec)%N →
  (Decimal.value (Decimal.mul price (Decimal.mk false 11 (-1)))
   == Decimal.value price * (11 # 10))%Q.
Proof.
  intros Hlt. rewrite mul_exact_value by done.
  assert (H11 : (Decimal.value (Decimal.mk false 11 (-1)) == 11 # 10)%Q) by (by vm_compute).
  by rewrite H11.
Qed.

Lemma cart_items_rows (s : Store) (cart : UUID) : rows_of_cart s cart (cart_items s cart).
Proof.
  split; [apply NoDup_fst_map_to_list|]. intros k item. apply elem_of_cart_items.
Qed.

(** Two listings of the rows of a cart differ in their order only. *)
Lemma rows_of_cart_perm (s : Store) (cart : UUID) (rows rows' : list (Z * CartItem)) :
  rows_of_cart s cart rows → rows_of_cart s cart rows' → rows ≡ₚ rows'.
Proof.
  intros [Hnd Hin] [Hnd' Hin'].
  apply NoDup_Permutation; [by eapply NoDup_fmap_1|by eapply NoDup_fmap_1|].
  intros [k item]. by rewrite Hin, Hin'.
Qed.

(** C3: the total price of a cart is the [sum] of quantity times unit
    price over the rows of the item table that belong to the cart, all of
    them and each once, and each term is the line total that
    [CartItemSerializer] computes for the item. The rows are those of the
    table, whose items refer to existing products; the order in which
    [cart.items.all()] lists them is the database's. *)
Theorem cart_total_price_is_sum (s : Store) (cart : UUID) :
  (∀ k item, cartitems s !! k = Some item → cartitem_cart item = cart →
     is_Some (products s !! cartitem_product item)) →
  ∃ rows : list (Z * CartItem),
    rows_of_cart s cart rows
    ∧ (∀ k item, (k, item) ∈ rows →
         ∃ p, products s !! cartitem_product item = Some p
              ∧ CartItemSerializer.get_total_price s item
                = Ok (py_mul (PyInt (cartitem_quantity item)) (PyDec (product_unit_price p)))
              ∧ row_total s (k, item)
                = py_mul (PyInt (cartitem_quantity item)) (PyDec (product_unit_price p)))
    ∧ CartSerializer.get_total_price s cart = Ok (py_sum (map (row_total s) rows)).
Proof.
  intros Hitems. exists (cart_items s cart).
  split; [apply cart_items_rows|].
  assert (Hrow : ∀ k item, (k, item) ∈ cart_items s cart →
            ∃ p, products s !! cartitem_product item = Some p
                 ∧ CartItemSerializer.get_total_price s item
                   = Ok (py_mul (PyInt (cartitem_quantity item)) (PyDec (product_unit_price p)))
                 ∧ row_total s (k, item)
                   = py_mul (PyInt (cartitem_quantity item)) (PyDec (product_unit_price p))).
  { intros k item Hin. apply elem_of_cart_items in Hin as [Hk Hc].
    destruct (Hitems k item Hk Hc) as [p Hp]. exists p. split; [done|].
    unfold CartItemSerializer.get_total_price, related_product, row_total, unit_price_of.
    simpl. by rewrite Hp. }
  split; [done|].
  unfold CartSerializer.get_total_price.
  rewrite (mapR_Ok _ (row_total s)); [done|].
  apply Forall_forall. intros [k item] Hin.
  destruct (Hrow k item Hin) as (p & Hp & _ & Htotal).
  rewrite Htotal. unfold related_product. simpl. by rewrite Hp.
Qed.

(** A cart with two rows, 2 at 10.00 and 3 at 2.50, in a table that holds a
    row of another cart: the total is 27.50. *)
Lemma cart_total_price_is_sum_witness :
  (∃ rows : list (Z * CartItem),
     rows ≡ₚ [(1, two_teas); (2, three_coffees)]
     ∧ CartSerializer.get_total_price market_carts 5%N
       = Ok (py_sum (map (row_total market_carts) rows)))
  ∧ CartSerializer.get_total_price market_carts 5%N = Ok (PyDec (Decimal.mk false 2750 (-2))).
Proof.
  split; [|by vm_compute].
  destruct (cart_total_price_is_sum market_carts 5%N) as (rows & Hrows & _ & Htotal).
  { intros k item Hk _. a_row Hk; by eexists. }
  exists rows. split; [|exact Htotal].
  apply (rows_of_cart_perm market_carts 5%N); [done|].
  split; [cbn; apply NoDup_cons; split; [|apply NoDup_singleton];
          rewrite list_elem_of_singleton; lia|].
  intros k item. rewrite !elem_of_cons, elem_of_nil. split.
  - intros [[= -> ->]|[[= -> ->]|[]]]; by split.
  - intros [Hk Hc]. a_row Hk; [by left|right; by left|discriminate].
Defined.

(** C9: a cart without items has the total price [0], the value of the
    empty [sum]. *)
Theorem empty_cart_total_price (s : Store) (cart : UUID) :
  (∀ k item, cartitems s !! k = Some item → cartitem_cart item ≠ cart) →
  CartSerializer.get_total_price s cart = Ok (PyInt 0).
Proof.
  intros Hnone. unfold CartSerializer.get_total_price.
  by rewrite cart_items_nil.
Qed.

Lemma empty_cart_total_price_witness :
  CartSerializer.get_total_price shop 5%N = Ok (PyInt 0).
Proof.
  apply (empty_cart_total_price shop 5%N).
  intros k item Hk. unfold shop in Hk. cbn [cartitems] in Hk.
  by rewrite lookup_empty in Hk.
Defined.

(** ** Deletion guards *)

(** C5: deleting a collection that owns a product answers with status 405
    and an [{error: message}] body, and the store is as it was. *)
Theorem collection_delete_conflict (s : Store) (pk : Z) (c : Collection)
    (k : Z) (p : Product) :
  collections s !! pk = Some c →
  products s !! k = Some p →
  product_collection p = pk →
  ∃ message,
    CollectionViewSet.delete s pk =
      ({| body := ErrorBody message; status := 405 |}, s).
Proof.
  intros Hc Hp Hpc. eexists. unfold CollectionViewSet.delete, get_object_or_404.
  rewrite Hc. simpl.
  destruct (decide _) as [|Hn]; [reflexivity|].
  exfalso. apply Hn. unfold products_count.
  pose proof (size_filter_pos (λ kv, product_collection kv.2 = pk) (products s) k p Hp Hpc).
  lia.
Qed.

Lemma collection_delete_conflict_witness :
  ∃ message,
    CollectionViewSet.delete shop 1 = ({| body := ErrorBody message; status := 405 |}, shop).
Proof. by apply (collection_delete_conflict shop 1 drinks 1 tea). Defined.

(** C6: deleting a product that an order line references answers with an
    error response (status 405) and leaves the store as it was; deleting
    a product without order lines answers 204 and removes the product, and
    no other product. *)
Theorem product_delete_guard (s : Store) (pk : Z) (p : Product) :
  products s !! pk = Some p →
  ((∃ k o, orderitems s !! k = Some o ∧ orderitem_product o = pk) →
     ∃ message,
       ProductViewSet.delete s pk =
         ({| body := ErrorBody message; status := 405 |}, s))
  ∧
  ((∀ k o, orderitems s !! k = Some o → orderitem_product o ≠ pk) →
     ∃ s',
       ProductViewSet.delete s pk = ({| body := NoBody; status := 204 |}, s')
       ∧ products s' !! pk = None
       ∧ (∀ k, k ≠ pk → products s' !! k = products s !! k)
       ∧ collections s' = collections s
       ∧ orderitems s' = orderitems s).
Proof.
  intros Hp. unfold ProductViewSet.delete, get_object_or_404. rewrite Hp. simpl.
  split.
  - intros (k & o & Ho & Hop). eexists.
    destruct (decide _) as [|Hn]; [reflexivity|].
    exfalso. apply Hn. unfold orderitems_count.
    pose proof (size_filter_pos (λ kv, orderitem_product kv.2 = pk) (orderitems s) k o Ho Hop).
    lia.
  - intros Hnone. eexists.
    destruct (decide _) as [Hpos|]; [exfalso|].
    + unfold orderitems_count in Hpos.
      rewrite (size_filter_zero (λ kv, orderitem_product kv.2 = pk)) in Hpos; [lia|].
      intros k o Ho. simpl. by apply Hnone with k.
    + split; [reflexivity|]. simpl. split; [apply lookup_delete_eq|].
      split; [|done]. intros k Hk. by apply lookup_delete_ne.
Qed.

Lemma product_delete_guard_witness :
  (∃ message,
     ProductViewSet.delete shop_sold 1 =
       ({| body := ErrorBody message; status := 405 |}, shop_sold))
  ∧ (∃ s', ProductViewSet.delete shop 1 = ({| body := NoBody; status := 204 |}, s')
           ∧ products s' !! 1 = None).
Proof.
  split.
  - apply (product_delete_guard shop_sold 1 tea); [done|].
    exists 1, {| orderitem_product := 1 |}. by split.
  - destruct (product_delete_guard shop 1 tea) as [_ Hfree]; [done|].
    destruct Hfree as (s' & Hrun & Hgone & _).
    + intros k o Ho. unfold shop in Ho. cbn [orderitems] in Ho.
      by rewrite lookup_empty in Ho.
    + by exists s'.
Defined.

(** ** Lookup by cart and product *)

Lemma CartItem_objects_get_DoesNotExist (s : Store) (cart : UUID) (pid : Z) :
  (∀ k item, cartitems s !! k = Some item →
             ¬ (cartitem_cart item = cart ∧ cartitem_product item = pid)) →
  CartItem_objects_get s cart pid = Raise DoesNotExist.
Proof.
  intros Hnone. unfold CartItem_objects_get.
  rewrite filter_none_empty; [by rewrite map_to_list_empty|].
  intros k item Hk. simpl. by apply Hnone with k.
Qed.

Lemma CartItem_objects_get_Ok (s : Store) (cart : UUID) (pid pk : Z) (item : CartItem) :
  cartitems s !! pk = Some item →
  cartitem_cart item = cart →
  cartitem_product item = pid →
  (∀ k item', cartitems s !! k = Some item' →
              cartitem_cart item' = cart → cartitem_product item' = pid → k = pk) →
  CartItem_objects_get s cart pid = Ok (pk, item).
Proof.
  intros Hpk Hc Hp Huniq. unfold CartItem_objects_get.
  replace (filter _ (cartitems s)) with ({[ pk := item ]} : gmap Z CartItem).
  { by rewrite map_to_list_singleton. }
  apply map_eq. intros k. symmetry.
  destruct (decide (k = pk)) as [->|Hne].
  - rewrite lookup_singleton_eq. by apply map_lookup_filter_Some.
  - rewrite lookup_singleton_ne by done. apply map_lookup_filter_None.
    right. intros item' Hk [Hc' Hp']. simpl in *. apply Hne. by apply Huniq with item'.
Qed.

(** What each outcome of the lookup tells about the table. *)
Lemma CartItem_objects_get_inv (s : Store) (cart : UUID) (pid : Z) :
  match CartItem_objects_get s cart pid with
  | Ok (pk, item) =>
      cartitems s !! pk = Some item ∧ cartitem_cart item = cart ∧ cartitem_product item = pid
  | Raise DoesNotExist =>
      ∀ k item, cartitems s !! k = Some item →
                ¬ (cartitem_cart item = cart ∧ cartitem_product item = pid)
  | Raise e => e = MultipleObjectsReturned
  end.
Proof.
  unfold CartItem_objects_get.
  destruct (map_to_list _) as [|[pk item] [|row' l]] eqn:E.
  - apply map_to_list_empty_iff in E. intros k item Hk Hpair.
    assert (Hf : filter (λ kv : Z * CartItem,
                           cartitem_cart kv.2 = cart ∧ cartitem_product kv.2 = pid)
                   (cartitems s) !! k = Some item) by (by apply map_lookup_filter_Some).
    rewrite E in Hf. by rewrite lookup_empty in Hf.
  - assert (Hin : (pk, item) ∈ map_to_list (filter (λ kv : Z * CartItem,
                     cartitem_cart kv.2 = cart ∧ cartitem_product kv.2 = pid) (cartitems s))).
    { rewrite E. apply list_elem_of_here. }
    by apply elem_of_map_to_list, map_lookup_filter_Some in Hin as [Hk [Hc Hp]].
  - done.
Qed.

(** ** The add operation *)

(** The POST request as the class stands: the serializer has no [Meta], the
    request is answered 500 and nothing is written. *)
Lemma create_without_Meta (s : Store) (cart : UUID) (data : Data) :
  CartItemViewSet.create s cart data = ({| body := NoBody; status := 500 |}, s).
Proof. done. Qed.

(** So are the creation of a cart and the reading of an existing one, by
    [CartSerializer]. *)
Lemma cart_views_without_Meta (s : Store) (id : UUID) :
  CartViewSet.create s id = ({| body := NoBody; status := 500 |}, s)
  ∧ (id ∈ carts s → CartViewSet.retrieve s id = ({| body := NoBody; status := 500 |}, s))
  ∧ (id ∉ carts s →
     CartViewSet.retrieve s id = ({| body := DetailBody "Not found."; status := 404 |}, s)).
Proof.
  split; [done|]. unfold CartViewSet.retrieve.
  split; intros Hid; by destruct (decide (id ∈ carts s)).
Qed.

Lemma save_new_row (s : Store) (cart : UUID) (vd : AddCartItemSerializer.validated_data) :
  cart ∈ carts s →
  is_Some (products s !! AddCartItemSerializer.product_id vd) →
  (∀ k item, cartitems s !! k = Some item →
             ¬ (cartitem_cart item = cart ∧
                cartitem_product item = AddCartItemSerializer.product_id vd)) →
  let pk := next_pk (cartitems_seq s) (cartitems s) in
  let item := {| cartitem_cart := cart;
                 cartitem_product := AddCartItemSerializer.product_id vd;
                 cartitem_quantity := AddCartItemSerializer.quantity vd |} in
  AddCartItemSerializer.save s cart vd = Ok (pk, item, CartItem_insert s pk item).
Proof.
  intros Hcart Hex Hnone pk item. unfold AddCartItemSerializer.save.
  rewrite CartItem_objects_get_DoesNotExist by done.
  unfold CartItem_objects_create. simpl.
  destruct (decide _) as [|Hn]; [done|]. exfalso. by apply Hn.
Qed.

Lemma save_existing_row (s : Store) (cart : UUID) (vd : AddCartItemSerializer.validated_data)
    (pk : Z) (item : CartItem) :
  cartitems s !! pk = Some item →
  cartitem_cart item = cart →
  cartitem_product item = AddCartItemSerializer.product_id vd →
  (∀ k item', cartitems s !! k = Some item' →
              cartitem_cart item' = cart →
              cartitem_product item' = AddCartItemSerializer.product_id vd → k = pk) →
  let item' := {| cartitem_cart := cartitem_cart item;
                  cartitem_product := cartitem_product item;
                  cartitem_quantity := cartitem_quantity item
                                       + AddCartItemSerializer.quantity vd |} in
  AddCartItemSerializer.save s cart vd = Ok (pk, item', CartItem_save s pk item').
Proof.
  intros Hpk Hc Hpr Hu item'. unfold AddCartItemSerializer.save.
  by rewrite (CartItem_objects_get_Ok s cart _ pk item).
Qed.

(** The store after [save], whatever its outcome. *)
Lemma save_store (s : Store) (cart : UUID) (vd : AddCartItemSerializer.validated_data) :
  match AddCartItemSerializer.save s cart vd with
  | Ok (_, _, s') =>
      s' = match CartItem_objects_get s cart (AddCartItemSerializer.product_id vd) with
           | Ok (pk, item) =>
               CartItem_save s pk
                 {| cartitem_cart := cartitem_cart item;
                    cartitem_product := cartitem_product item;
                    cartitem_quantity := cartitem_quantity item
                                         + AddCartItemSerializer.quantity vd |}
           | Raise _ =>
               CartItem_insert s (next_pk (cartitems_seq s) (cartitems s))
                 {| cartitem_cart := cart;
                    cartitem_product := AddCartItemSerializer.product_id vd;
                    cartitem_quantity := AddCartItemSerializer.quantity vd |}
           end
  | Raise e =>
      match CartItem_objects_get s cart (AddCartItemSerializer.product_id vd) with
      | Ok _ => False
      | Raise DoesNotExist =>
          e = IntegrityError
          ∧ ¬ (cart ∈ carts s ∧ is_Some (products s !! AddCartItemSerializer.product_id vd))
      | Raise e' => e = e'
      end
  end.
Proof.
  unfold AddCartItemSerializer.save.
  destruct (CartItem_objects_get s cart _) as [[pk item]|e]; [done|].
  destruct e; try done. unfold CartItem_objects_create. simpl.
  by destruct (decide _).
Qed.

(** The store after a [SaveItem]: that of [save] when the product exists
    and the quantity is positive, the same store otherwise. *)
Lemma run_op_SaveItem (s : Store) (cart : UUID) (pid q : Z) :
  run_op s (SaveItem cart pid q) =
    if decide (is_Some (products s !! pid) ∧ 1 ≤ q) then
      match AddCartItemSerializer.save s cart
              {| AddCartItemSerializer.product_id := pid;
                 AddCartItemSerializer.quantity := q |} with
      | Ok (_, _, s') => s'
      | Raise _ => s
      end
    else s.
Proof.
  simpl. unfold AddCartItemSerializer.validate_product_id, validate_quantity.
  destruct (decide (is_Some (products s !! pid))) as [Hex|Hno]; simpl.
  - destruct (decide (1 ≤ q)) as [Hq|Hq]; simpl.
    + by destruct (decide _) as [|Hn]; [|destruct Hn].
    + by destruct (decide _) as [[_ ?]|].
  - by destruct (decide _) as [[? _]|].
Qed.

(** C7: a product id that names no product of the store does not pass
    [validate_product_id]: it raises the validation error of the field, so
    [save], which comes after validation, does not run, no row is created
    and the store is as it was. *)
Theorem add_unknown_product (s : Store) (cart : UUID) (pid q : Z) :
  products s !! pid = None →
  AddCartItemSerializer.validate_product_id s pid
    = Raise (ValidationError "No product with the given ID was found.")
  ∧ (p ← AddCartItemSerializer.validate_product_id s pid;
     AddCartItemSerializer.save s cart
       {| AddCartItemSerializer.product_id := p; AddCartItemSerializer.quantity := q |})
    = Raise (ValidationError "No product with the given ID was found.")
  ∧ run_op s (SaveItem cart pid q) = s.
Proof.
  intros Hp.
  assert (Hraise : AddCartItemSerializer.validate_product_id s pid
                   = Raise (ValidationError "No product with the given ID was found.")).
  { unfold AddCartItemSerializer.validate_product_id.
    destruct (decide (is_Some (products s !! pid))) as [[x Hx]|_]; [congruence|done]. }
  split; [done|]. split; [by rewrite Hraise|].
  simpl. by rewrite Hraise.
Qed.

Lemma add_unknown_product_witness :
  AddCartItemSerializer.validate_product_id shop 9
    = Raise (ValidationError "No product with the given ID was found.")
  ∧ run_op shop (SaveItem 5%N 9 2) = shop.
Proof.
  destruct (add_unknown_product shop 5%N 9 2) as (Hraise & _ & Hsame); [reflexivity|].
  by split.
Defined.

(** C1: from a store where the cart has no item for the product, [save]
    with quantity [q1] and then [save] with quantity [q2] for the same cart
    and product leave exactly one row for this cart and product, with
    quantity [q1 + q2]: the first call creates the row, the second finds it
    and adds to it. *)
Theorem add_twice_one_row (s : Store) (cart : UUID) (pid q1 q2 : Z) :
  cart ∈ carts s →
  is_Some (products s !! pid) →
  (∀ k item, cartitems s !! k = Some item →
             ¬ (cartitem_cart item = cart ∧ cartitem_product item = pid)) →
  ∃ pk item1 s1 item2 s2,
    AddCartItemSerializer.save s cart
      {| AddCartItemSerializer.product_id := pid; AddCartItemSerializer.quantity := q1 |}
      = Ok (pk, item1, s1)
    ∧ AddCartItemSerializer.save s1 cart
        {| AddCartItemSerializer.product_id := pid; AddCartItemSerializer.quantity := q2 |}
      = Ok (pk, item2, s2)
    ∧ cartitems s2 !! pk =
        Some {| cartitem_cart := cart; cartitem_product := pid;
                cartitem_quantity := q1 + q2 |}
    ∧ ∀ k item, cartitems s2 !! k = Some item →
                cartitem_cart item = cart → cartitem_product item = pid → k = pk.
Proof.
  intros Hcart Hex Hnone.
  set (pk := next_pk (cartitems_seq s) (cartitems s)).
  set (row := {| cartitem_cart := cart; cartitem_product := pid; cartitem_quantity := q1 |}).
  set (s1 := CartItem_insert s pk row).
  assert (Hu1 : ∀ k item', cartitems s1 !! k = Some item' →
              cartitem_cart item' = cart → cartitem_product item' = pid → k = pk).
  { intros k item' Hk Hc Hp. simpl in Hk.
    destruct (decide (k = pk)) as [|Hne]; [done|].
    rewrite lookup_insert_ne in Hk by done. exfalso. by apply (Hnone k item'). }
  eexists pk, row, s1, _, _.
  split; [by apply (save_new_row s cart
                      {| AddCartItemSerializer.product_id := pid;
                         AddCartItemSerializer.quantity := q1 |})|].
  split.
  { apply (save_existing_row s1 cart
             {| AddCartItemSerializer.product_id := pid;
                AddCartItemSerializer.quantity := q2 |} pk row); try done.
    simpl. apply lookup_insert_eq. }
  simpl. split; [apply lookup_insert_eq|].
  intros k item Hk Hc Hp. destruct (decide (k = pk)) as [|Hne]; [done|].
  rewrite lookup_insert_ne in Hk by done. by apply (Hu1 k item).
Qed.

Lemma add_twice_one_row_witness :
  ∃ pk item1 s1 item2 s2,
    AddCartItemSerializer.save market_carts 6%N
      {| AddCartItemSerializer.product_id := 2; AddCartItemSerializer.quantity := 2 |}
      = Ok (pk, item1, s1)
    ∧ AddCartItemSerializer.save s1 6%N
        {| AddCartItemSerializer.product_id := 2; AddCartItemSerializer.quantity := 3 |}
      = Ok (pk, item2, s2)
    ∧ cartitems s2 !! pk =
        Some {| cartitem_cart := 6%N; cartitem_product := 2; cartitem_quantity := 2 + 3 |}
    ∧ ∀ k item, cartitems s2 !! k = Some item →
                cartitem_cart item = 6%N → cartitem_product item = 2 → k = pk.
Proof.
  apply (add_twice_one_row market_carts 6%N 2 2 3).
  - reflexivity.
  - by eexists.
  - intros k item Hk [Hc Hp]. a_row Hk; discriminate.
Defined.

(** C10: in a store with at most one row per cart and product, [save] for
    a cart and product that have their row changes the quantity of that row
    and nothing else: the row keeps its key, its cart and its product, every
    other row of the table stays as it was, no key is issued, and the other
    tables stay as they were. *)
Theorem add_existing_changes_only_quantity (s : Store) (cart : UUID)
    (vd : AddCartItemSerializer.validated_data) (pk : Z) (item : CartItem) :
  one_row_per_cart_product s →
  cartitems s !! pk = Some item →
  cartitem_cart item = cart →
  cartitem_product item = AddCartItemSerializer.product_id vd →
  let item' := {| cartitem_cart := cartitem_cart item;
                  cartitem_product := cartitem_product item;
                  cartitem_quantity := cartitem_quantity item
                                       + AddCartItemSerializer.quantity vd |} in
  ∃ s',
    AddCartItemSerializer.save s cart vd = Ok (pk, item', s')
    ∧ cartitems s' !! pk = Some item'
    ∧ (∀ k, k ≠ pk → cartitems s' !! k = cartitems s !! k)
    ∧ cartitems_seq s' = cartitems_seq s
    ∧ carts s' = carts s
    ∧ products s' = products s
    ∧ collections s' = collections s
    ∧ orderitems s' = orderitems s
    ∧ reviews s' = reviews s.
Proof.
  intros Hu Hpk Hc Hpr item'. eexists. split.
  - apply (save_existing_row s cart vd pk item); try done.
    intros k item0 Hk Hc' Hp'. apply (Hu k pk item0 item); congruence.
  - simpl. split; [apply lookup_insert_eq|].
    split; [|done]. intros k Hne. by apply lookup_insert_ne.
Qed.

Lemma market_carts_unique : one_row_per_cart_product market_carts.
Proof.
  intros k1 k2 i1 i2 H1 H2 Hc Hp. a_row H1; a_row H2; done.
Qed.

Lemma add_existing_changes_only_quantity_witness :
  ∃ s',
    AddCartItemSerializer.save market_carts 5%N
      {| AddCartItemSerializer.product_id := 1; AddCartItemSerializer.quantity := 3 |}
    = Ok (1, {| cartitem_cart := 5%N; cartitem_product := 1; cartitem_quantity := 2 + 3 |}, s')
    ∧ cartitems s' !! 2 = Some three_coffees
    ∧ cartitems s' !! 3 = Some four_teas
    ∧ products s' = products market_carts.
Proof.
  destruct (add_existing_changes_only_quantity market_carts 5%N
              {| AddCartItemSerializer.product_id := 1; AddCartItemSerializer.quantity := 3 |}
              1 two_teas market_carts_unique)
    as (s' & Hsave & _ & Hrest & _ & _ & Hprod & _); try reflexivity.
  exists s'. split; [exact Hsave|].
  split; [by rewrite Hrest|]. split; [by rewrite Hrest|]. exact Hprod.
Defined.

(** ** The update operation *)

Lemma get_object_Ok (s : Store) (cart : UUID) (pk : Z) (item : CartItem) :
  cartitems s !! pk = Some item → cartitem_cart item = cart →
  CartItemViewSet.get_object s cart pk = Ok item.
Proof.
  intros Hpk Hc. unfold CartItemViewSet.get_object, get_object_or_404.
  replace (CartItemViewSet.get_queryset s cart !! pk) with (Some item); [done|].
  symmetry. by apply map_lookup_filter_Some.
Qed.

Lemma get_object_inv (s : Store) (cart : UUID) (pk : Z) (item : CartItem) :
  CartItemViewSet.get_object s cart pk = Ok item →
  cartitems s !! pk = Some item ∧ cartitem_cart item = cart.
Proof.
  unfold CartItemViewSet.get_object, get_object_or_404.
  destruct (CartItemViewSet.get_queryset s cart !! pk) as [item'|] eqn:E; [|done].
  intros [= ->]. by apply map_lookup_filter_Some in E.
Qed.

Lemma get_serializer_class_by_method :
  CartItemViewSet.get_serializer_class CartItemViewSet.POST
    = CartItemViewSet.AddCartItemSerializer_class
  ∧ CartItemViewSet.get_serializer_class CartItemViewSet.PATCH
    = CartItemViewSet.UpdateCartItemSerializer_class
  ∧ CartItemViewSet.PUT ∉ CartItemViewSet.http_method_names.
Proof.
  split; [done|]. split; [done|]. unfold CartItemViewSet.http_method_names.
  rewrite !elem_of_cons, elem_of_nil. by intros [?|[?|[?|[?|[]]]]].
Qed.

(** C8 (the validator of [quantity] follows the spec): for an item of the
    cart, a PATCH whose quantity is zero or negative is refused with a
    validation error (status 400) and the store is as it was; a PATCH with
    a positive quantity [q] answers 200 and sets the quantity of the row to
    [q], whatever else the body holds: the row keeps its cart and product,
    every other row and table is as it was; and the line total computed for
    the row afterwards is [q] times the unit price of its product (exactly,
    within the precision). *)
Theorem partial_update_sets_quantity (s : Store) (cart : UUID) (pk : Z)
    (item : CartItem) (data : Data) (q : Z) :
  cartitems s !! pk = Some item →
  cartitem_cart item = cart →
  data !! "quantity" = Some q →
  (q ≤ 0 →
     ∃ errors,
       CartItemViewSet.partial_update s cart pk data =
         ({| body := FieldErrorsBody errors; status := 400 |}, s))
  ∧
  (0 < q →
     let item' := {| cartitem_cart := cartitem_cart item;
                     cartitem_product := cartitem_product item;
                     cartitem_quantity := q |} in
     ∃ s',
       CartItemViewSet.partial_update s cart pk data =
         ({| body := FieldsBody [("quantity", q)]; status := 200 |}, s')
       ∧ cartitems s' !! pk = Some item'
       ∧ (∀ k, k ≠ pk → cartitems s' !! k = cartitems s !! k)
       ∧ products s' = products s ∧ carts s' = carts s
       ∧ collections s' = collections s ∧ orderitems s' = orderitems s
       ∧ reviews s' = reviews s
       ∧ ∀ p, products s !! cartitem_product item = Some p →
           CartItemSerializer.get_total_price s' item' =
             Ok (PyDec (Decimal.mul (Decimal.of_int q) (product_unit_price p)))
           ∧ ((Z.to_N q * Decimal.coeff (product_unit_price p) < 10 ^ Decimal.prec)%N →
              (Decimal.value (Decimal.mul (Decimal.of_int q) (product_unit_price p))
               == inject_Z q * Decimal.value (product_unit_price p))%Q)).
Proof.
  intros Hpk Hc Hq.
  unfold CartItemViewSet.partial_update.
  rewrite (get_object_Ok s cart pk item Hpk Hc). simpl.
  unfold UpdateCartItemSerializer.is_valid, validate_quantity. rewrite Hq.
  split; intros Hsign.
  - destruct (decide (1 ≤ q)); [lia|]. simpl. by eexists.
  - destruct (decide (1 ≤ q)); [|lia]. simpl. eexists. split; [reflexivity|]. simpl.
    split; [apply lookup_insert_eq|].
    split; [intros k Hne; by apply lookup_insert_ne|].
    do 5 (split; [done|]).
    intros p Hp. unfold CartItemSerializer.get_total_price, related_product. simpl.
    rewrite Hp. simpl. split; [done|]. intros Hlt.
    rewrite mul_exact_value, value_of_int; [reflexivity|].
    simpl. by replace (Z.abs_N q) with (Z.to_N q) by lia.
Qed.

Lemma partial_update_sets_quantity_witness :
  (∃ errors,
     CartItemViewSet.partial_update shop_cart 5%N 1 {[ "quantity" := 0 ]} =
       ({| body := FieldErrorsBody errors; status := 400 |}, shop_cart))
  ∧ (∃ s',
       CartItemViewSet.partial_update shop_cart 5%N 1 (add_data 9 4) =
         ({| body := FieldsBody [("quantity", 4)]; status := 200 |}, s')
       ∧ cartitems s' !! 1 =
           Some {| cartitem_cart := 5%N; cartitem_product := 1; cartitem_quantity := 4 |}).
Proof.
  split.
  - destruct (partial_update_sets_quantity shop_cart 5%N 1 two_teas {[ "quantity" := 0 ]} 0)
      as [Hreject _]; try reflexivity.
    apply Hreject. lia.
  - destruct (partial_update_sets_quantity shop_cart 5%N 1 two_teas (add_data 9 4) 4)
      as [_ Haccept]; try reflexivity.
    destruct Haccept as (s' & Hrun & Hrow & _); [lia|].
    by exists s'.
Defined.

(** ** At most one row per cart and product *)

Lemma unique_items_empty : unique_items ∅.
Proof. intros k1 k2 i1 i2 H1. by rewrite lookup_empty in H1. Qed.

Lemma unique_items_subseteq (m m' : gmap Z CartItem) :
  m' ⊆ m → unique_items m → unique_items m'.
Proof.
  intros Hsub Hu k1 k2 i1 i2 H1 H2.
  apply (Hu k1 k2 i1 i2); by eapply lookup_weaken.
Qed.

(** Writing a row back with the same cart and product. *)
Lemma unique_items_rewrite (m : gmap Z CartItem) (pk : Z) (item item' : CartItem) :
  m !! pk = Some item →
  cartitem_cart item' = cartitem_cart item →
  cartitem_product item' = cartitem_product item →
  unique_items m → unique_items (<[pk := item']> m).
Proof.
  intros Hpk Hc Hp Hu k1 k2 i1 i2 H1 H2 Hc12 Hp12.
  destruct (decide (k1 = pk)) as [->|N1], (decide (k2 = pk)) as [->|N2]; [done|..].
  - rewrite lookup_insert_eq in H1. rewrite lookup_insert_ne in H2 by done.
    inversion H1; subst i1. apply (Hu pk k2 item i2); congruence.
  - rewrite lookup_insert_eq in H2. rewrite lookup_insert_ne in H1 by done.
    inversion H2; subst i2. apply (Hu k1 pk i1 item); congruence.
  - rewrite lookup_insert_ne in H1, H2 by done. by apply (Hu k1 k2 i1 i2).
Qed.

(** Writing a row for a cart and product that have none. *)
Lemma unique_items_new (m : gmap Z CartItem) (pk : Z) (item : CartItem) :
  (∀ k item', m !! k = Some item' →
     ¬ (cartitem_cart item' = cartitem_cart item ∧
        cartitem_product item' = cartitem_product item)) →
  unique_items m → unique_items (<[pk := item]> m).
Proof.
  intros Hnone Hu k1 k2 i1 i2 H1 H2 Hc12 Hp12.
  destruct (decide (k1 = pk)) as [->|N1], (decide (k2 = pk)) as [->|N2]; [done|..].
  - rewrite lookup_insert_eq in H1. rewrite lookup_insert_ne in H2 by done.
    inversion H1; subst i1. exfalso. apply (Hnone k2 i2 H2). by split.
  - rewrite lookup_insert_eq in H2. rewrite lookup_insert_ne in H1 by done.
    inversion H2; subst i2. exfalso. apply (Hnone k1 i1 H1). by split.
  - rewrite lookup_insert_ne in H1, H2 by done. by apply (Hu k1 k2 i1 i2).
Qed.

(** [save] keeps the property, whatever data it is given. *)
Lemma save_preserves_unique (s : Store) (cart : UUID)
    (vd : AddCartItemSerializer.validated_data) :
  one_row_per_cart_product s →
  match AddCartItemSerializer.save s cart vd with
  | Ok (_, _, s') => one_row_per_cart_product s'
  | Raise _ => True
  end.
Proof.
  intros Hu. unfold AddCartItemSerializer.save.
  pose proof (CartItem_objects_get_inv s cart (AddCartItemSerializer.product_id vd)) as Hinv.
  destruct (CartItem_objects_get s cart (AddCartItemSerializer.product_id vd))
    as [[pk item]|ex].
  - destruct Hinv as (Hpk & Hc & Hp). simpl.
    by apply (unique_items_rewrite _ pk item).
  - destruct ex; try done. unfold CartItem_objects_create.
    destruct (decide _); [|done]. simpl.
    apply unique_items_new; [|done]. simpl. intros k item' Hk. by apply Hinv with k.
Qed.

Lemma partial_update_preserves_unique (s : Store) (cart : UUID) (pk : Z) (data : Data) :
  one_row_per_cart_product s →
  one_row_per_cart_product (CartItemViewSet.partial_update s cart pk data).2.
Proof.
  intros Hu. unfold CartItemViewSet.partial_update.
  destruct (CartItemViewSet.get_object s cart pk) as [item|e0] eqn:Hget; [|done].
  apply get_object_inv in Hget as [Hpk Hcart]. simpl.
  destruct (UpdateCartItemSerializer.is_valid data) as [[q|]|ex]; [| |done]; simpl;
    by apply (unique_items_rewrite _ pk item).
Qed.

Lemma run_op_preserves_unique (s : Store) (op : CartOp) :
  one_row_per_cart_product s → one_row_per_cart_product (run_op s op).
Proof.
  intros Hu. destruct op as [id|cart data|cart pid q|cart pk data|cart pk|id];
    [done|done| |simpl..].
  - rewrite run_op_SaveItem. destruct (decide _); [|done].
    pose proof (save_preserves_unique s cart
                  {| AddCartItemSerializer.product_id := pid;
                     AddCartItemSerializer.quantity := q |} Hu) as Hsave.
    by destruct (AddCartItemSerializer.save s cart _) as [[[? ?] s']|e].
  - by apply partial_update_preserves_unique.
  - unfold CartItemViewSet.destroy.
    destruct (CartItemViewSet.get_object s cart pk); [|done]. simpl.
    eapply unique_items_subseteq; [apply delete_subseteq|done].
  - unfold CartViewSet.destroy. destruct (decide _); [|done]. simpl.
    eapply unique_items_subseteq; [apply map_filter_subseteq|done].
Qed.

(** C2: cart creation, add (the request on the view, and the serializer's
    [save] on validated data), update, remove and cart deletion, handled one
    after the other in any order and number, keep the table of cart items
    with at most one row per cart and product; so every store reached from
    one that has the property, an empty table in particular, has it. *)
Theorem reachable_one_row_per_cart_product (s0 : Store) (ops : list CartOp) :
  one_row_per_cart_product s0 →
  one_row_per_cart_product (run_ops s0 ops).
Proof.
  revert s0. induction ops as [|op ops IH]; intros s0 Hu; [done|].
  simpl. apply IH. by apply run_op_preserves_unique.
Qed.

Lemma reachable_one_row_per_cart_product_witness :
  one_row_per_cart_product
    (run_ops market [SaveItem 5%N 1 2; AddItem 5%N (add_data 1 2); SaveItem 6%N 1 1;
                     SaveItem 5%N 1 3; SaveItem 5%N 2 1; UpdateItem 5%N 1 {[ "quantity" := 4 ]};
                     RemoveItem 6%N 2; CreateCart 7%N; DeleteCart 5%N]).
Proof.
  apply (reachable_one_row_per_cart_product market).
  unfold one_row_per_cart_product, market. cbn [cartitems]. apply unique_items_empty.
Defined.

(** ** The scenarios of the spec, run *)

(** Empty cart, product 1 saved with quantity 2 and again with quantity 3:
    one row of quantity 5, and a cart total of 50.00. *)
Example scenario_add_twice :
  let s2 := run_ops shop [SaveItem 5%N 1 2; SaveItem 5%N 1 3] in
  cart_items s2 5%N
    = [(1, {| cartitem_cart := 5%N; cartitem_product := 1; cartitem_quantity := 5 |})]
  ∧ CartSerializer.get_total_price s2 5%N = Ok (PyDec (Decimal.mk false 5000 (-2))).
Proof. by vm_compute. Qed.

(** Updating the quantity to 0 is refused, updating it to 4 gives a total
    of 40.00. *)
Example scenario_update :
  (CartItemViewSet.partial_update shop_cart 5%N 1 {[ "quantity" := 0 ]}).1 =
    {| body := FieldErrorsBody [("quantity", "Ensure this value is greater than or equal to 1.")];
       status := 400 |}
  ∧ CartSerializer.get_total_price (run_op shop_cart (UpdateItem 5%N 1 {[ "quantity" := 4 ]})) 5%N
    = Ok (PyDec (Decimal.mk false 4000 (-2))).
Proof. by vm_compute. Qed.

(** Keys are not issued twice: after the row of key 1 is removed, the next
    row gets key 2. *)
Example scenario_keys :
  cartitems (run_ops shop [SaveItem 5%N 1 2; RemoveItem 5%N 1; SaveItem 5%N 1 3])
  = {[ 2 := {| cartitem_cart := 5%N; cartitem_product := 1; cartitem_quantity := 3 |} ]}.
Proof. by vm_compute. Qed.

(** * More properties of the code *)

(** ** More on the deletion guards *)

(** Deleting a collection without products answers 204 and removes that
    collection only: the other collections and every other table stay as
    they were. *)
Theorem collection_delete_removes (s : Store) (pk : Z) (c : Collection) :
  collections s !! pk = Some c →
  (∀ k p, products s !! k = Some p → product_collection p ≠ pk) →
  ∃ s',
    CollectionViewSet.delete s pk = ({| body := NoBody; status := 204 |}, s')
    ∧ collections s' !! pk = None
    ∧ (∀ k, k ≠ pk → collections s' !! k = collections s !! k)
    ∧ products s' = products s ∧ orderitems s' = orderitems s
    ∧ reviews s' = reviews s ∧ carts s' = carts s ∧ cartitems s' = cartitems s.
Proof.
  intros Hc Hnone. unfold CollectionViewSet.delete, get_object_or_404.
  rewrite Hc. simpl.
  destruct (decide _) as [Hpos|_].
  { exfalso. unfold products_count in Hpos.
    rewrite (size_filter_zero (λ kv, product_collection kv.2 = pk)) in Hpos; [lia|].
    intros k p Hp. simpl. by apply Hnone with k. }
  eexists. split; [reflexivity|]. simpl.
  split; [apply lookup_delete_eq|]. split; [|done].
  intros k Hk. by apply lookup_delete_ne.
Qed.

Lemma collection_delete_removes_witness :
  ∃ s',
    CollectionViewSet.delete shop_snacks 2 = ({| body := NoBody; status := 204 |}, s')
    ∧ collections s' !! 2 = None
    ∧ products s' = products shop_snacks.
Proof.
  destruct (collection_delete_removes shop_snacks 2 snacks) as (s' & Hrun & Hgone & _ & Hp & _).
  - reflexivity.
  - intros k p Hk. unfold shop_snacks, shop in Hk. cbn [products] in Hk.
    apply lookup_singleton_Some in Hk as [<- <-]. done.
  - by exists s'.
Defined.

(** A deleted product or collection is gone: after a delete answered 204,
    deleting the same key again is answered 404 and changes nothing. *)
Theorem delete_twice_not_found (s : Store) (pk : Z) :
  (status (ProductViewSet.delete s pk).1 = 204 →
     let s' := (ProductViewSet.delete s pk).2 in
     ProductViewSet.delete s' pk = ({| body := DetailBody "Not found."; status := 404 |}, s'))
  ∧ (status (CollectionViewSet.delete s pk).1 = 204 →
     let s' := (CollectionViewSet.delete s pk).2 in
     CollectionViewSet.delete s' pk = ({| body := DetailBody "Not found."; status := 404 |}, s')).
Proof.
  split.
  - unfold ProductViewSet.delete at 1 2, get_object_or_404.
    destruct (products s !! pk) as [p|] eqn:Hp; simpl; [|done].
    destruct (decide _); simpl; [done|]. intros _.
    unfold ProductViewSet.delete, get_object_or_404. simpl.
    by rewrite lookup_delete_eq.
  - unfold CollectionViewSet.delete at 1 2, get_object_or_404.
    destruct (collections s !! pk) as [c|] eqn:Hc; simpl; [|done].
    destruct (decide _); simpl; [done|]. intros _.
    unfold CollectionViewSet.delete, get_object_or_404. simpl.
    by rewrite lookup_delete_eq.
Qed.

Lemma delete_twice_not_found_witness :
  ProductViewSet.delete (ProductViewSet.delete shop 1).2 1 =
    ({| body := DetailBody "Not found."; status := 404 |}, (ProductViewSet.delete shop 1).2)
  ∧ CollectionViewSet.delete (CollectionViewSet.delete shop_snacks 2).2 2 =
    ({| body := DetailBody "Not found."; status := 404 |},
     (CollectionViewSet.delete shop_snacks 2).2).
Proof.
  split.
  - by apply (delete_twice_not_found shop 1).
  - by apply (delete_twice_not_found shop_snacks 2).
Defined.

(** ** More on the cart-item requests *)

(** The row [get] returns is the only one of its cart and product. *)
Lemma CartItem_objects_get_Ok_unique (s : Store) (cart : UUID) (pid pk : Z) (item : CartItem) :
  CartItem_objects_get s cart pid = Ok (pk, item) →
  ∀ k item', cartitems s !! k = Some item' →
             cartitem_cart item' = cart → cartitem_product item' = pid → k = pk.
Proof.
  unfold CartItem_objects_get.
  destruct (map_to_list _) as [|row [|row' l]] eqn:E; try done.
  intros [= ->] k item' Hk Hc Hp.
  assert (Hin : (k, item') ∈ map_to_list (filter (λ kv : Z * CartItem,
                   cartitem_cart kv.2 = cart ∧ cartitem_product kv.2 = pid) (cartitems s))).
  { by apply elem_of_map_to_list, map_lookup_filter_Some. }
  rewrite E in Hin. apply list_elem_of_singleton in Hin. by inversion Hin.
Qed.

(** Two rows of the same cart and product make [get] raise. *)
Lemma CartItem_objects_get_Multiple (s : Store) (cart : UUID) (pid k1 k2 : Z)
    (i1 i2 : CartItem) :
  k1 ≠ k2 →
  cartitems s !! k1 = Some i1 → cartitem_cart i1 = cart → cartitem_product i1 = pid →
  cartitems s !! k2 = Some i2 → cartitem_cart i2 = cart → cartitem_product i2 = pid →
  CartItem_objects_get s cart pid = Raise MultipleObjectsReturned.
Proof.
  intros Hne H1 Hc1 Hp1 H2 Hc2 Hp2.
  pose proof (CartItem_objects_get_inv s cart pid) as Hinv.
  destruct (CartItem_objects_get s cart pid) as [[pk item]|e] eqn:E.
  - exfalso. apply Hne.
    rewrite (CartItem_objects_get_Ok_unique s cart pid pk item E k1 i1) by done.
    by rewrite (CartItem_objects_get_Ok_unique s cart pid pk item E k2 i2).
  - destruct e; try discriminate Hinv; try done.
    exfalso. by apply (Hinv k1 i1).
Qed.

(** [save] catches [DoesNotExist] only: when two rows exist for the cart
    and product, the lookup raises [MultipleObjectsReturned] and [save]
    raises it too; a view that calls [save] answers 500 and writes nothing,
    whatever it would do next, and so do the [SaveItem] step and the POST
    request of the view. *)
Theorem save_duplicates_raise (s : Store) (cart : UUID) (k1 k2 : Z) (i1 i2 : CartItem)
    (vd : AddCartItemSerializer.validated_data) (data : Data) :
  k1 ≠ k2 →
  cartitems s !! k1 = Some i1 → cartitems s !! k2 = Some i2 →
  cartitem_cart i1 = cart → cartitem_cart i2 = cart →
  cartitem_product i1 = AddCartItemSerializer.product_id vd →
  cartitem_product i2 = AddCartItemSerializer.product_id vd →
  AddCartItemSerializer.save s cart vd = Raise MultipleObjectsReturned
  ∧ (∀ next : Z * CartItem * Store → Result (Response * Store),
       respond s (AddCartItemSerializer.save s cart vd ≫= next)
       = ({| body := NoBody; status := 500 |}, s))
  ∧ run_op s (SaveItem cart (AddCartItemSerializer.product_id vd)
                       (AddCartItemSerializer.quantity vd)) = s
  ∧ CartItemViewSet.create s cart data = ({| body := NoBody; status := 500 |}, s).
Proof.
  intros Hne H1 H2 Hc1 Hc2 Hp1 Hp2.
  assert (Hsave : AddCartItemSerializer.save s cart vd = Raise MultipleObjectsReturned).
  { unfold AddCartItemSerializer.save.
    by rewrite (CartItem_objects_get_Multiple s cart _ k1 k2 i1 i2). }
  split; [done|]. split; [intros next; by rewrite Hsave|]. split; [|done].
  rewrite run_op_SaveItem. destruct (decide _); [|done].
  destruct vd as [pid q]. simpl in *. by rewrite Hsave.
Qed.

Lemma save_duplicates_raise_witness :
  AddCartItemSerializer.save shop_twice 5%N
    {| AddCartItemSerializer.product_id := 1; AddCartItemSerializer.quantity := 3 |}
  = Raise MultipleObjectsReturned
  ∧ run_op shop_twice (SaveItem 5%N 1 3) = shop_twice.
Proof.
  destruct (save_duplicates_raise shop_twice 5%N 1 2 two_teas two_teas
              {| AddCartItemSerializer.product_id := 1; AddCartItemSerializer.quantity := 3 |}
              (add_data 1 3)) as (Hraise & _ & Hsame & _); try reflexivity; [lia|].
  by split.
Defined.

(** An item is reachable through its own cart only: a PATCH or DELETE
    whose path names another cart, or a key that does not exist, is answered
    404 and changes nothing. *)
Theorem item_of_other_cart_not_found (s : Store) (cart : UUID) (pk : Z) (data : Data) :
  (∀ item, cartitems s !! pk = Some item → cartitem_cart item ≠ cart) →
  CartItemViewSet.partial_update s cart pk data =
    ({| body := DetailBody "Not found."; status := 404 |}, s)
  ∧ CartItemViewSet.destroy s cart pk =
    ({| body := DetailBody "Not found."; status := 404 |}, s).
Proof.
  intros Hother.
  assert (Hget : CartItemViewSet.get_object s cart pk = Raise Http404).
  { destruct (CartItemViewSet.get_object s cart pk) as [item|e] eqn:E.
    - apply get_object_inv in E as [Hpk Hc]. by destruct (Hother item Hpk).
    - unfold CartItemViewSet.get_object, get_object_or_404 in E.
      by destruct (CartItemViewSet.get_queryset s cart !! pk); inversion E. }
  unfold CartItemViewSet.partial_update, CartItemViewSet.destroy. by rewrite Hget.
Qed.

Lemma item_of_other_cart_not_found_witness :
  CartItemViewSet.partial_update shop_cart 6%N 1 {[ "quantity" := 4 ]} =
    ({| body := DetailBody "Not found."; status := 404 |}, shop_cart)
  ∧ CartItemViewSet.destroy shop_cart 6%N 1 =
    ({| body := DetailBody "Not found."; status := 404 |}, shop_cart).
Proof.
  apply (item_of_other_cart_not_found shop_cart 6%N 1).
  intros item Hk. unfold shop_cart in Hk. cbn [cartitems] in Hk.
  by apply lookup_singleton_Some in Hk as [_ <-].
Defined.

Lemma Store_eq (s s' : Store) :
  collections s = collections s' → products s = products s' →
  orderitems s = orderitems s' → reviews s = reviews s' →
  carts s = carts s' → cartitems s = cartitems s' →
  reviews_seq s = reviews_seq s' → cartitems_seq s = cartitems_seq s' → s = s'.
Proof. destruct s, s'. simpl. by intros -> -> -> -> -> -> -> ->. Qed.

(** The store after a [SaveItem] with a known product and a positive
    quantity, by the outcome of the lookup. *)
Lemma SaveItem_store (s : Store) (cart : UUID) (pid q : Z) :
  is_Some (products s !! pid) →
  1 ≤ q →
  run_op s (SaveItem cart pid q) =
    match CartItem_objects_get s cart pid with
    | Ok (pk, item) =>
        CartItem_save s pk {| cartitem_cart := cartitem_cart item;
                              cartitem_product := cartitem_product item;
                              cartitem_quantity := cartitem_quantity item + q |}
    | Raise DoesNotExist =>
        if decide (cart ∈ carts s)
        then CartItem_insert s (next_pk (cartitems_seq s) (cartitems s))
               {| cartitem_cart := cart; cartitem_product := pid; cartitem_quantity := q |}
        else s
    | Raise _ => s
    end.
Proof.
  intros Hex Hpos. rewrite run_op_SaveItem.
  destruct (decide _) as [_|Hn]; [|by destruct Hn].
  unfold AddCartItemSerializer.save. simpl.
  destruct (CartItem_objects_get s cart pid) as [[pk item]|e]; [done|].
  destruct e; try done. unfold CartItem_objects_create. simpl.
  destruct (decide (cart ∈ carts s)) as [Hin|Hout].
  - destruct (decide _) as [|Hn]; [done|]. exfalso. by apply Hn.
  - destruct (decide _) as [[Hin _]|]; [done|done].
Qed.

(** A [SaveItem] that names no product of the store changes nothing. *)
Lemma SaveItem_store_unknown (s : Store) (cart : UUID) (pid q : Z) :
  products s !! pid = None → run_op s (SaveItem cart pid q) = s.
Proof.
  intros Hp. rewrite run_op_SaveItem.
  destruct (decide _) as [[[x Hx] _]|]; [congruence|done].
Qed.

(** Adds accumulate: saving [q1] and then [q2] of the same product to a
    cart leaves the store that saving [q1 + q2] at once leaves, whether the
    row existed, was created by the first call, or could not be written. *)
Theorem add_add_is_add_sum (s : Store) (cart : UUID) (pid q1 q2 : Z) :
  1 ≤ q1 → 1 ≤ q2 →
  run_op (run_op s (SaveItem cart pid q1)) (SaveItem cart pid q2)
  = run_op s (SaveItem cart pid (q1 + q2)).
Proof.
  intros Hpos1 Hpos2.
  destruct (products s !! pid) as [p|] eqn:Hprod.
  2:{ by rewrite !(SaveItem_store_unknown s cart pid). }
  assert (Hex : is_Some (products s !! pid)) by (by eexists).
  rewrite (SaveItem_store s cart pid (q1 + q2)) by (done || lia).
  pose proof (SaveItem_store s cart pid q1 Hex Hpos1) as Hs1.
  pose proof (CartItem_objects_get_inv s cart pid) as Hinv.
  destruct (CartItem_objects_get s cart pid) as [[pk item]|e] eqn:Hget.
  - (* the row exists: two increments *)
    destruct Hinv as (Hpk & Hc & Hpr).
    set (s1 := run_op s (SaveItem cart pid q1)) in *.
    assert (Hex1 : is_Some (products s1 !! pid)) by (by rewrite Hs1).
    rewrite (SaveItem_store s1 cart pid q2) by done.
    rewrite (CartItem_objects_get_Ok s1 cart pid pk
               {| cartitem_cart := cartitem_cart item;
                  cartitem_product := cartitem_product item;
                  cartitem_quantity := cartitem_quantity item + q1 |}); try done.
    + rewrite Hs1. apply Store_eq; try done. simpl. rewrite insert_insert_eq.
      do 2 f_equal. lia.
    + rewrite Hs1. simpl. apply lookup_insert_eq.
    + intros k item' Hk Hc' Hp'. rewrite Hs1 in Hk. simpl in Hk.
      destruct (decide (k = pk)) as [|Hne]; [done|].
      rewrite lookup_insert_ne in Hk by done.
      by apply (CartItem_objects_get_Ok_unique s cart pid pk item Hget k item').
  - destruct e; try (by rewrite Hs1, (SaveItem_store s cart pid q2), Hget).
    (* no row: the first call creates it, the second adds to it *)
    destruct (decide (cart ∈ carts s)) as [Hin|Hout].
    2:{ rewrite Hs1, (SaveItem_store s cart pid q2), Hget by done.
        by destruct (decide (cart ∈ carts s)). }
    set (s1 := run_op s (SaveItem cart pid q1)) in *.
    set (pk := next_pk (cartitems_seq s) (cartitems s)) in *.
    assert (Hex1 : is_Some (products s1 !! pid)) by (by rewrite Hs1).
    rewrite (SaveItem_store s1 cart pid q2) by done.
    rewrite (CartItem_objects_get_Ok s1 cart pid pk
               {| cartitem_cart := cart; cartitem_product := pid;
                  cartitem_quantity := q1 |}); try done.
    + rewrite Hs1. apply Store_eq; try done. simpl. by rewrite insert_insert_eq.
    + rewrite Hs1. simpl. apply lookup_insert_eq.
    + intros k item' Hk Hc' Hp'. rewrite Hs1 in Hk. simpl in Hk.
      destruct (decide (k = pk)) as [|Hne]; [done|].
      rewrite lookup_insert_ne in Hk by done. exfalso. by apply (Hinv k item').
Qed.

Lemma add_add_is_add_sum_witness :
  run_op (run_op market_carts (SaveItem 6%N 2 2)) (SaveItem 6%N 2 3)
  = run_op market_carts (SaveItem 6%N 2 (2 + 3))
  ∧ run_op (run_op market_carts (SaveItem 5%N 1 2)) (SaveItem 5%N 1 3)
  = run_op market_carts (SaveItem 5%N 1 (2 + 3)).
Proof.
  split.
  - apply (add_add_is_add_sum market_carts 6%N 2 2 3); lia.
  - apply (add_add_is_add_sum market_carts 5%N 1 2 3); lia.
Defined.

(** The store after a PATCH of an item of the cart. *)
Lemma partial_update_store (s : Store) (cart : UUID) (pk : Z) (item : CartItem) (data : Data) :
  cartitems s !! pk = Some item → cartitem_cart item = cart →
  (CartItemViewSet.partial_update s cart pk data).2 =
    match data !! "quantity" with
    | Some q => if decide (1 ≤ q)
                then CartItem_save s pk {| cartitem_cart := cartitem_cart item;
                                           cartitem_product := cartitem_product item;
                                           cartitem_quantity := q |}
                else s
    | None => s
    end.
Proof.
  intros Hpk Hc. unfold CartItemViewSet.partial_update.
  rewrite (get_object_Ok s cart pk item Hpk Hc). simpl.
  unfold UpdateCartItemSerializer.is_valid, validate_quantity.
  destruct (data !! "quantity") as [q|]; simpl.
  - by destruct (decide (1 ≤ q)).
  - apply Store_eq; try done. simpl. by apply insert_id.
Qed.

(** A PATCH whose body has no [quantity] is answered 200 with the current
    quantity and changes nothing, whatever else the body holds. *)
Theorem patch_without_quantity_changes_nothing (s : Store) (cart : UUID) (pk : Z)
    (item : CartItem) (data : Data) :
  cartitems s !! pk = Some item → cartitem_cart item = cart →
  data !! "quantity" = None →
  CartItemViewSet.partial_update s cart pk data =
    ({| body := FieldsBody [("quantity", cartitem_quantity item)]; status := 200 |}, s).
Proof.
  intros Hpk Hc Hq.
  pose proof (partial_update_store s cart pk item data Hpk Hc) as Hs. rewrite Hq in Hs.
  destruct (CartItemViewSet.partial_update s cart pk data) as [r s'] eqn:E. simpl in Hs.
  subst s'. f_equal. revert E. unfold CartItemViewSet.partial_update.
  rewrite (get_object_Ok s cart pk item Hpk Hc). simpl.
  unfold UpdateCartItemSerializer.is_valid. rewrite Hq. simpl. by intros [= <- _].
Qed.

Lemma patch_without_quantity_changes_nothing_witness :
  CartItemViewSet.partial_update shop_cart 5%N 1 {[ "product_id" := 9 ]} =
    ({| body := FieldsBody [("quantity", 2)]; status := 200 |}, shop_cart).
Proof.
  by apply (patch_without_quantity_changes_nothing shop_cart 5%N 1 two_teas).
Defined.

(** Updates overwrite: after any PATCH, a valid PATCH of the same item
    leaves the store it would have left alone. *)
Theorem patch_last_wins (s : Store) (cart : UUID) (pk : Z) (data1 data2 : Data) (q2 : Z) :
  data2 !! "quantity" = Some q2 → 1 ≤ q2 →
  (CartItemViewSet.partial_update
     (CartItemViewSet.partial_update s cart pk data1).2 cart pk data2).2
  = (CartItemViewSet.partial_update s cart pk data2).2.
Proof.
  intros Hq2 Hpos.
  destruct (CartItemViewSet.get_object s cart pk) as [item|e] eqn:Hget.
  2:{ assert (Hs1 : (CartItemViewSet.partial_update s cart pk data1).2 = s).
      { unfold CartItemViewSet.partial_update. by rewrite Hget. }
      by rewrite Hs1. }
  apply get_object_inv in Hget as [Hpk Hc].
  rewrite (partial_update_store s cart pk item data2 Hpk Hc), Hq2.
  destruct (decide (1 ≤ q2)); [|lia].
  pose proof (partial_update_store s cart pk item data1 Hpk Hc) as Hs1.
  set (s1 := (CartItemViewSet.partial_update s cart pk data1).2) in *.
  destruct (data1 !! "quantity") as [q1|]; [destruct (decide (1 ≤ q1))|].
  - rewrite (partial_update_store s1 cart pk
               {| cartitem_cart := cartitem_cart item;
                  cartitem_product := cartitem_product item;
                  cartitem_quantity := q1 |}), Hq2.
    + destruct (decide (1 ≤ q2)); [|lia]. rewrite Hs1. unfold CartItem_save. simpl.
      by rewrite insert_insert_eq.
    + rewrite Hs1. simpl. apply lookup_insert_eq.
    + done.
  - rewrite Hs1, (partial_update_store s cart pk item data2 Hpk Hc), Hq2.
    by destruct (decide (1 ≤ q2)).
  - rewrite Hs1, (partial_update_store s cart pk item data2 Hpk Hc), Hq2.
    by destruct (decide (1 ≤ q2)).
Qed.

Lemma patch_last_wins_witness :
  (CartItemViewSet.partial_update
     (CartItemViewSet.partial_update shop_cart 5%N 1 {[ "quantity" := 7 ]}).2 5%N 1
     {[ "quantity" := 4 ]}).2
  = (CartItemViewSet.partial_update shop_cart 5%N 1 {[ "quantity" := 4 ]}).2.
Proof.
  apply (patch_last_wins shop_cart 5%N 1 _ _ 4); [reflexivity|lia].
Defined.

(** The first [save] of a product to a cart creates a row under a key the
    table has not issued before. Removing that item gives back every table
    as it was, but not the key: saving the product again creates the row
    under a larger key. *)
Theorem add_then_remove_restores (s : Store) (cart : UUID)
    (vd : AddCartItemSerializer.validated_data) :
  is_Some (products s !! AddCartItemSerializer.product_id vd) →
  cart ∈ carts s →
  (∀ k item, cartitems s !! k = Some item →
             ¬ (cartitem_cart item = cart ∧
                cartitem_product item = AddCartItemSerializer.product_id vd)) →
  let row := {| cartitem_cart := cart;
                cartitem_product := AddCartItemSerializer.product_id vd;
                cartitem_quantity := AddCartItemSerializer.quantity vd |} in
  ∃ pk s1 s2 pk' s3,
    AddCartItemSerializer.save s cart vd = Ok (pk, row, s1)
    ∧ cartitems s !! pk = None
    ∧ cartitems_seq s < pk
    ∧ CartItemViewSet.destroy s1 cart pk = ({| body := NoBody; status := 204 |}, s2)
    ∧ cartitems s2 = cartitems s
    ∧ products s2 = products s ∧ carts s2 = carts s ∧ collections s2 = collections s
    ∧ orderitems s2 = orderitems s ∧ reviews s2 = reviews s
    ∧ AddCartItemSerializer.save s2 cart vd = Ok (pk', row, s3)
    ∧ pk < pk'.
Proof.
  intros Hex Hcart Hnone row.
  set (pk := next_pk (cartitems_seq s) (cartitems s)).
  set (s1 := CartItem_insert s pk row).
  set (s2 := CartItem_delete s1 pk).
  assert (Hfresh : cartitems s !! pk = None) by apply next_pk_fresh.
  assert (Hback : cartitems s2 = cartitems s).
  { simpl. rewrite delete_insert_eq. by apply delete_id. }
  exists pk, s1, s2, (next_pk (cartitems_seq s2) (cartitems s2)),
    (CartItem_insert s2 (next_pk (cartitems_seq s2) (cartitems s2)) row).
  split; [by apply save_new_row|]. split; [done|].
  split; [apply next_pk_above|]. split.
  { unfold CartItemViewSet.destroy.
    rewrite (get_object_Ok s1 cart pk row); [done| |done].
    simpl. apply lookup_insert_eq. }
  split; [done|]. do 5 (split; [done|]). split.
  - apply save_new_row; [done|done|]. intros k item Hk. rewrite Hback in Hk.
    by apply (Hnone k).
  - change (cartitems_seq s2) with pk. apply next_pk_above.
Qed.

Lemma add_then_remove_restores_witness :
  ∃ pk s1 s2 pk' s3,
    AddCartItemSerializer.save market_carts 6%N
      {| AddCartItemSerializer.product_id := 2; AddCartItemSerializer.quantity := 2 |}
    = Ok (pk, {| cartitem_cart := 6%N; cartitem_product := 2; cartitem_quantity := 2 |}, s1)
    ∧ CartItemViewSet.destroy s1 6%N pk = ({| body := NoBody; status := 204 |}, s2)
    ∧ cartitems s2 = cartitems market_carts
    ∧ AddCartItemSerializer.save s2 6%N
        {| AddCartItemSerializer.product_id := 2; AddCartItemSerializer.quantity := 2 |}
      = Ok (pk', {| cartitem_cart := 6%N; cartitem_product := 2; cartitem_quantity := 2 |}, s3)
    ∧ pk < pk'.
Proof.
  destruct (add_then_remove_restores market_carts 6%N
              {| AddCartItemSerializer.product_id := 2; AddCartItemSerializer.quantity := 2 |})
    as (pk & s1 & s2 & pk' & s3 & Hsave & _ & _ & Hdel & Hback & _ & _ & _ & _ & _ & Hagain & Hlt).
  - by eexists.
  - reflexivity.
  - intros k item Hk [Hc Hp]. a_row Hk; discriminate.
  - by exists pk, s1, s2, pk', s3.
Defined.

(** ** Carts do not interfere *)

Section other_cart.
Context (cart : UUID).
Implicit Types m : gmap Z CartItem.

Lemma queryset_insert_other m pk item' :
  cartitem_cart item' ≠ cart →
  (∀ item, m !! pk = Some item → cartitem_cart item ≠ cart) →
  filter (λ kv : Z * CartItem, cartitem_cart kv.2 = cart) (<[pk := item']> m) = filter (λ kv : Z * CartItem, cartitem_cart kv.2 = cart) m.
Proof.
  intros Hnew Hold. apply map_eq. intros k.
  destruct (decide (k = pk)) as [->|Hne].
  - transitivity (@None CartItem); [|symmetry]; apply map_lookup_filter_None; right.
    + intros x Hx. rewrite lookup_insert_eq in Hx. by inversion Hx; subst.
    + intros x Hx. by apply Hold.
  - by rewrite !map_lookup_filter, lookup_insert_ne.
Qed.

Lemma queryset_delete_other m pk :
  (∀ item, m !! pk = Some item → cartitem_cart item ≠ cart) →
  filter (λ kv : Z * CartItem, cartitem_cart kv.2 = cart) (delete pk m) = filter (λ kv : Z * CartItem, cartitem_cart kv.2 = cart) m.
Proof.
  intros Hold. rewrite map_filter_delete. apply delete_id.
  apply map_lookup_filter_None. right. intros x Hx. by apply Hold.
Qed.

Lemma queryset_filter_other m cart' :
  cart' ≠ cart →
  filter (λ kv : Z * CartItem, cartitem_cart kv.2 = cart) (filter (λ kv : Z * CartItem, cartitem_cart kv.2 ≠ cart') m)
  = filter (λ kv : Z * CartItem, cartitem_cart kv.2 = cart) m.
Proof.
  intros Hne. apply map_eq. intros k. apply option_eq. intros x.
  rewrite !map_lookup_filter_Some. simpl. split; [tauto|].
  intros [Hk Hc]. repeat split; try done. congruence.
Qed.
End other_cart.

(** Carts do not interfere: a request on one cart leaves the items of every
    other cart, the products, and so the total of every other cart, as they
    were. *)
Theorem other_carts_untouched (s : Store) (op : CartOp) (cart : UUID) :
  op_cart op ≠ cart →
  CartItemViewSet.get_queryset (run_op s op) cart = CartItemViewSet.get_queryset s cart
  ∧ products (run_op s op) = products s
  ∧ CartSerializer.get_total_price (run_op s op) cart = CartSerializer.get_total_price s cart.
Proof.
  intros Hne.
  assert (Hqp : CartItemViewSet.get_queryset (run_op s op) cart
                = CartItemViewSet.get_queryset s cart
                ∧ products (run_op s op) = products s).
  { unfold CartItemViewSet.get_queryset.
    destruct op as [id|cart' data|cart' pid q|cart' pk data|cart' pk|id];
      [done|done| |simpl in *..].
    - rewrite run_op_SaveItem. destruct (decide _); [|done].
      unfold AddCartItemSerializer.save. simpl in *.
      pose proof (CartItem_objects_get_inv s cart' pid) as Hinv.
      destruct (CartItem_objects_get s cart' pid) as [[pk item]|ex].
      + destruct Hinv as (Hpk & Hc & Hp). simpl. split; [|done].
        apply queryset_insert_other; simpl; [congruence|].
        intros item0 H0. rewrite Hpk in H0. inversion H0; subst. congruence.
      + destruct ex; try done. unfold CartItem_objects_create.
        destruct (decide _); [|done]. simpl. split; [|done].
        apply queryset_insert_other; simpl; [done|].
        intros item0 H0. by rewrite next_pk_fresh in H0.
    - unfold CartItemViewSet.partial_update.
      destruct (CartItemViewSet.get_object s cart' pk) as [item|e0] eqn:Hget; [|done].
      apply get_object_inv in Hget as [Hpk Hc]. simpl.
      destruct (UpdateCartItemSerializer.is_valid data) as [[q|]|ex]; [| |done]; simpl;
        (split; [|done]); apply queryset_insert_other; simpl; try congruence;
        intros item0 H0; rewrite Hpk in H0; inversion H0; subst; congruence.
    - unfold CartItemViewSet.destroy.
      destruct (CartItemViewSet.get_object s cart' pk) as [item|e0] eqn:Hget; [|done].
      apply get_object_inv in Hget as [Hpk Hc]. simpl. split; [|done].
      apply queryset_delete_other.
      intros item0 H0. rewrite Hpk in H0. inversion H0; subst. congruence.
    - unfold CartViewSet.destroy. destruct (decide _); [|done]. simpl. split; [|done].
      by apply queryset_filter_other. }
  destruct Hqp as [Hq Hp]. split; [done|]. split; [done|].
  unfold CartSerializer.get_total_price, cart_items, related_product.
  unfold CartItemViewSet.get_queryset in Hq. by rewrite Hq, Hp.
Qed.

(** Three requests that change cart 6, and leave cart 5 alone. *)
Lemma other_carts_untouched_witness :
  (cartitems (run_op market_carts (SaveItem 6%N 2 1)) !! 4
     = Some {| cartitem_cart := 6%N; cartitem_product := 2; cartitem_quantity := 1 |}
   ∧ CartItemViewSet.get_queryset (run_op market_carts (SaveItem 6%N 2 1)) 5%N
     = CartItemViewSet.get_queryset market_carts 5%N)
  ∧ (cartitems (run_op market_carts (UpdateItem 6%N 3 {[ "quantity" := 9 ]})) !! 3
       = Some {| cartitem_cart := 6%N; cartitem_product := 1; cartitem_quantity := 9 |}
     ∧ CartSerializer.get_total_price
         (run_op market_carts (UpdateItem 6%N 3 {[ "quantity" := 9 ]})) 5%N
       = CartSerializer.get_total_price market_carts 5%N)
  ∧ (cartitems (run_op market_carts (DeleteCart 6%N)) !! 3 = None
     ∧ CartItemViewSet.get_queryset (run_op market_carts (DeleteCart 6%N)) 5%N
       = CartItemViewSet.get_queryset market_carts 5%N).
Proof.
  split; [|split]; (split; [by vm_compute|]).
  - by apply (other_carts_untouched market_carts (SaveItem 6%N 2 1) 5%N).
  - by apply (other_carts_untouched market_carts (UpdateItem 6%N 3 {[ "quantity" := 9 ]}) 5%N).
  - by apply (other_carts_untouched market_carts (DeleteCart 6%N) 5%N).
Defined.

(** ** What the cart requests keep true of every row *)

Lemma UpdateCartItemSerializer_is_valid_inv (data : Data) (q : Z) :
  UpdateCartItemSerializer.is_valid data = Ok (Some q) →
  data !! "quantity" = Some q ∧ 1 ≤ q.
Proof.
  unfold UpdateCartItemSerializer.is_valid, validate_quantity.
  destruct (data !! "quantity") as [v|]; [|done].
  destruct (decide (1 ≤ v)); [|done]. by intros [= <-].
Qed.

Section rows.
Context (s0 : Store) (Q : CartItem → Prop).
Hypothesis Q_quantity : ∀ item q,
  Q item → 1 ≤ q →
  Q {| cartitem_cart := cartitem_cart item; cartitem_product := cartitem_product item;
       cartitem_quantity := q |}.
Hypothesis Q_increment : ∀ item q,
  Q item → 1 ≤ q →
  Q {| cartitem_cart := cartitem_cart item; cartitem_product := cartitem_product item;
       cartitem_quantity := cartitem_quantity item + q |}.
Hypothesis Q_new : ∀ cart pid q,
  is_Some (products s0 !! pid) → 1 ≤ q →
  Q {| cartitem_cart := cart; cartitem_product := pid; cartitem_quantity := q |}.

Lemma rows_keep_insert (s : Store) (pk : Z) (item : CartItem) :
  rows_keep s0 Q s → Q item → rows_keep s0 Q (CartItem_save s pk item).
Proof.
  intros [Hp Hrows] HQ. split; [done|]. simpl. intros k item' Hk.
  destruct (decide (k = pk)) as [->|Hne].
  - rewrite lookup_insert_eq in Hk. by inversion Hk; subst.
  - rewrite lookup_insert_ne in Hk by done. by apply (Hrows k).
Qed.

Lemma rows_keep_new (s : Store) (pk : Z) (item : CartItem) :
  rows_keep s0 Q s → Q item → rows_keep s0 Q (CartItem_insert s pk item).
Proof.
  intros [Hp Hrows] HQ. split; [done|]. simpl. intros k item' Hk.
  destruct (decide (k = pk)) as [->|Hne].
  - rewrite lookup_insert_eq in Hk. by inversion Hk; subst.
  - rewrite lookup_insert_ne in Hk by done. by apply (Hrows k).
Qed.

Lemma run_op_rows_keep (s : Store) (op : CartOp) :
  rows_keep s0 Q s → rows_keep s0 Q (run_op s op).
Proof.
  intros Hk. pose proof Hk as [Hp Hrows].
  destruct op as [id|cart data|cart pid q|cart pk data|cart pk|id];
    [done|done| |simpl..].
  - rewrite run_op_SaveItem. destruct (decide _) as [[Hex Hq]|]; [|done].
    unfold AddCartItemSerializer.save. simpl.
    pose proof (CartItem_objects_get_inv s cart pid) as Hinv.
    destruct (CartItem_objects_get s cart pid) as [[pk item]|ex].
    + destruct Hinv as (Hpk & _). simpl. apply rows_keep_insert; [done|].
      apply Q_increment; [by apply (Hrows pk)|done].
    + destruct ex; try done. unfold CartItem_objects_create.
      destruct (decide _); [|done]. simpl. apply rows_keep_new; [done|].
      apply Q_new; [by rewrite <- Hp|done].
  - unfold CartItemViewSet.partial_update.
    destruct (CartItemViewSet.get_object s cart pk) as [item|e0] eqn:Hget; [|done].
    apply get_object_inv in Hget as [Hpk Hc]. simpl.
    destruct (UpdateCartItemSerializer.is_valid data) as [[q|]|ex] eqn:Hvalid; [| |done];
      simpl; apply rows_keep_insert; try done.
    + apply UpdateCartItemSerializer_is_valid_inv in Hvalid as [_ Hq].
      apply Q_quantity; [by apply (Hrows pk)|done].
    + by apply (Hrows pk).
  - unfold CartItemViewSet.destroy.
    destruct (CartItemViewSet.get_object s cart pk); [|done]. simpl.
    split; [done|]. simpl. intros k item Hk'.
    apply lookup_delete_Some in Hk' as [_ Hk']. by apply (Hrows k).
  - unfold CartViewSet.destroy. destruct (decide _); [|done]. simpl.
    split; [done|]. simpl. intros k item Hk'.
    apply map_lookup_filter_Some in Hk' as [Hk' _]. by apply (Hrows k).
Qed.

Lemma run_ops_rows_keep (ops : list CartOp) : ∀ s,
  rows_keep s0 Q s → rows_keep s0 Q (run_ops s ops).
Proof.
  induction ops as [|op ops IH]; intros s Hk; [done|].
  simpl. apply IH. by apply run_op_rows_keep.
Qed.
End rows.

(** With the quantity validator of both serializers, every sequence of
    cart requests keeps every quantity at 1 or more. *)
Theorem reachable_positive_quantities (s0 : Store) (ops : list CartOp) :
  positive_quantities s0 → positive_quantities (run_ops s0 ops).
Proof.
  intros Hpos.
  assert (Hkeep : rows_keep s0 (λ item, 1 ≤ cartitem_quantity item) (run_ops s0 ops)).
  { apply run_ops_rows_keep; simpl; try lia. by split. }
  by destruct Hkeep.
Qed.

Lemma reachable_positive_quantities_witness :
  positive_quantities
    (run_ops market [SaveItem 5%N 1 2; UpdateItem 5%N 1 {[ "quantity" := 0 ]};
                     SaveItem 5%N 1 (-5); SaveItem 5%N 1 3; SaveItem 6%N 2 1;
                     UpdateItem 6%N 2 {[ "quantity" := 7 ]}; AddItem 6%N (add_data 1 0)]).
Proof.
  apply (reachable_positive_quantities market). intros k item Hk. no_row Hk.
Defined.

(** [validate_product_id] keeps every cart item on an existing product
    along every sequence of cart requests, so the total of every cart can
    be computed in every store reached. *)
Theorem reachable_totals_defined (s0 : Store) (ops : list CartOp) (cart : UUID) :
  items_have_products s0 →
  items_have_products (run_ops s0 ops)
  ∧ ∃ v, CartSerializer.get_total_price (run_ops s0 ops) cart = Ok v.
Proof.
  intros Hhave.
  assert (Hkeep : rows_keep s0 (λ item, is_Some (products s0 !! cartitem_product item))
                     (run_ops s0 ops)).
  { apply run_ops_rows_keep; simpl; try done; by split. }
  destruct Hkeep as [Hp Hrows].
  assert (Hinv : items_have_products (run_ops s0 ops)).
  { intros k item Hk. rewrite Hp. by apply (Hrows k). }
  split; [done|]. unfold CartSerializer.get_total_price.
  set (line := λ kv : Z * CartItem,
         py_mul (PyInt (cartitem_quantity kv.2))
                (PyDec (unit_price_of (run_ops s0 ops) kv.2))).
  exists (py_sum (map line (cart_items (run_ops s0 ops) cart))).
  rewrite (mapR_Ok _ line); [done|].
  apply Forall_forall. intros [k item] Hin.
  apply elem_of_cart_items in Hin as [Hk _].
  destruct (Hinv k item Hk) as [p Hprod].
  unfold related_product, line, unit_price_of. simpl. by rewrite Hprod.
Qed.

Lemma reachable_totals_defined_witness :
  ∃ v, CartSerializer.get_total_price
         (run_ops market [SaveItem 5%N 1 2; SaveItem 5%N 9 1; SaveItem 5%N 2 3;
                          SaveItem 6%N 1 1; RemoveItem 5%N 1]) 5%N = Ok v.
Proof.
  apply (reachable_totals_defined market). intros k item Hk. no_row Hk.
Defined.

(** ** Reviews *)



(** ** More on the price with tax *)

Lemma div_half_even_range (n d : N) :
  (n / d ≤ Decimal.div_half_even n d ≤ n / d + 1)%N.
Proof.
  unfold Decimal.div_half_even.
  destruct (2 * (n mod d) ?= d)%N; [destruct (N.even (n / d))| |]; lia.
Qed.

(** A coefficient of more than [prec] digits is cut to exactly [prec]. *)
Lemma fix_digits (d : Decimal.t) :
  (10 ^ Decimal.prec ≤ Decimal.coeff d)%N →
  (10 ^ 27 ≤ Decimal.coeff (Decimal.fix_ d) < 10 ^ 28)%N.
Proof.
  intros Hbig. unfold Decimal.fix_.
  assert (Hpos : (0 < Decimal.coeff d)%N).
  { assert (0 < 10 ^ Decimal.prec)%N by (by vm_compute). lia. }
  destruct (N.eqb_spec (Decimal.coeff d) 0) as [|_]; [lia|].
  destruct (ndigits_spec _ Hpos) as (H1 & Hlo & Hhi).
  set (n := Decimal.ndigits (Decimal.coeff d)) in *.
  destruct (N.leb_spec n Decimal.prec) as [Hle|Hgt].
  { exfalso. apply (N.pow_le_mono_r 10) in Hle; lia. }
  set (k := (n - Decimal.prec)%N).
  assert (Hk1 : (10 ^ (n - 1) = 10 ^ k * 10 ^ 27)%N).
  { rewrite <- N.pow_add_r. f_equal. unfold k. change Decimal.prec with 28%N in *. lia. }
  assert (Hk2 : (10 ^ n = 10 ^ k * 10 ^ 28)%N).
  { rewrite <- N.pow_add_r. f_equal. unfold k. change Decimal.prec with 28%N in *. lia. }
  assert (HT : (10 ^ k ≠ 0)%N) by (apply N.pow_nonzero; lia).
  pose proof (div_half_even_range (Decimal.coeff d) (10 ^ k)) as Hrange.
  assert (Hq1 : (10 ^ 27 ≤ Decimal.coeff d / 10 ^ k)%N).
  { apply N.div_le_lower_bound; [done|]. by rewrite <- Hk1. }
  assert (Hq2 : (Decimal.coeff d / 10 ^ k < 10 ^ 28)%N).
  { apply N.Div0.div_lt_upper_bound. by rewrite <- Hk2. }
  set (C := Decimal.div_half_even (Decimal.coeff d) (10 ^ k)) in *.
  change (10 ^ Decimal.prec)%N with (10 ^ 28)%N.
  destruct (N.eqb_spec C (10 ^ 28)) as [HC|HC]; simpl.
  - rewrite HC. by vm_compute.
  - lia.
Qed.

(** The result of [calculate_tax] keeps the sign of the price and always
    has 28 significant digits, unless the price is zero, when it is zero
    with the exponent lowered by 51. *)
Theorem calculate_tax_28_digits (p : Product) :
  let price := product_unit_price p in
  let tax := ProductSerializer.calculate_tax p in
  (Decimal.coeff price ≠ 0%N →
     Decimal.sign tax = Decimal.sign price ∧ (10 ^ 27 ≤ Decimal.coeff tax < 10 ^ 28)%N)
  ∧ (Decimal.coeff price = 0%N →
     tax = Decimal.mk (Decimal.sign price) 0 (Decimal.exp price - 51)).
Proof.
  destruct p as [title description slug inventory [s c e] collection].
  cbn [product_unit_price Decimal.coeff Decimal.sign Decimal.exp].
  unfold ProductSerializer.calculate_tax. rewrite Decimal_of_float_1_1.
  unfold Decimal.mul. cbn [product_unit_price Decimal.sign Decimal.coeff Decimal.exp].
  set (D := 1100000000000000088817841970012523233890533447265625%N).
  split.
  - intros Hc.
    set (x := Decimal.mk (xorb s false) (c * D) (e + -51)).
    assert (Hbig : (10 ^ Decimal.prec ≤ Decimal.coeff x)%N).
    { simpl. change (10 ^ Decimal.prec)%N with 10000000000000000000000000000%N.
      unfold D. lia. }
    destruct (fix_rounds x Hbig) as (Hs & _ & _).
    split; [|by apply fix_digits].
    rewrite Hs. simpl. by destruct s.
  - intros ->. unfold Decimal.fix_. simpl. by destruct s.
Qed.

Lemma calculate_tax_28_digits_witness :
  (10 ^ 27 ≤ Decimal.coeff (ProductSerializer.calculate_tax tea) < 10 ^ 28)%N.
Proof. by apply (calculate_tax_28_digits tea). Defined.

(** The value of [calculate_tax] and of 11/10 of the price, both as a
    number of units of [10^(e - 51)]: the first exceeds the second, by less
    than one part in [10^16]. *)
Lemma calculate_tax_units (title description slug : string) (inventory collection : Z)
    (c : N) (e : Z) :
  c ≠ 0%N →
  let p := {| product_title := title; product_description := description;
              product_slug := slug; product_inventory := inventory;
              product_unit_price := Decimal.mk false c e;
              product_collection := collection |} in
  ∃ M : N,
    (Decimal.value (ProductSerializer.calculate_tax p)
     == inject_Z (Z.of_N M) * Qpower (10 # 1) (e + -51))%Q
    ∧ (Decimal.value (Decimal.mk false c e) * (11 # 10)
       == inject_Z (Z.of_N (c * 1100000000000000000000000000000000000000000000000000))
          * Qpower (10 # 1) (e + -51))%Q
    ∧ (c * 1100000000000000000000000000000000000000000000000000 < M)%N
    ∧ (M * 10000000000000000
       ≤ c * 1100000000000000000000000000000000000000000000000000 * 10000000000000001)%N.
Proof.
  intros Hc p. unfold p, ProductSerializer.calculate_tax. rewrite Decimal_of_float_1_1.
  unfold Decimal.mul. cbn [product_unit_price Decimal.sign Decimal.coeff Decimal.exp].
  set (D := 1100000000000000088817841970012523233890533447265625%N).
  set (x := Decimal.mk (xorb false false) (c * D) (e + -51)).
  assert (Hbig : (10 ^ Decimal.prec ≤ Decimal.coeff x)%N).
  { simpl. change (10 ^ Decimal.prec)%N with 10000000000000000000000000000%N.
    unfold D. lia. }
  destruct (fix_rounds x Hbig) as (Hs & He & Hcoef).
  assert (Hpos : (0 < c * D)%N) by (unfold D; lia).
  destruct (ndigits_spec (c * D) Hpos) as (_ & Hlo & Hhi).
  cbn [x Decimal.sign Decimal.coeff Decimal.exp] in Hcoef, He, Hs.
  set (n := Decimal.ndigits (c * D)) in *.
  assert (Hn : (51 < n)%N).
  { apply (N.pow_lt_mono_r_iff 10); [lia|].
    eapply N.le_lt_trans; [|exact Hhi].
    change (10 ^ 51)%N with 1000000000000000000000000000000000000000000000000000%N.
    unfold D. lia. }
  set (k := (n - Decimal.prec)%N) in *.
  assert (Hk : (10 ^ (n - 1) = 10 ^ k * 10 ^ 27)%N).
  { rewrite <- N.pow_add_r. f_equal. unfold k. change Decimal.prec with 28%N. lia. }
  rewrite Hk in Hlo.
  assert (HT : (0 < 10 ^ k)%N) by (apply N.neq_0_lt_0, N.pow_nonzero; lia).
  destruct (div_half_even_near (c * D) (10 ^ k) HT) as [Hnear1 Hnear2].
  set (M := (Decimal.div_half_even (c * D) (10 ^ k) * 10 ^ k)%N) in *.
  set (T := (10 ^ k)%N) in *.
  set (r := Decimal.fix_ x) in *.
  exists M. split; [|split].
  - rewrite (value_units (e + -51) r He). unfold units, Decimal.signed.
    rewrite Hs. simpl. by rewrite Hcoef.
  - unfold Decimal.value. cbn [Decimal.exp Decimal.signed Decimal.sign Decimal.coeff].
    assert (Hp : ((10 # 1) ^ e == (10 # 1) ^ (e + -51) * (10 # 1) ^ 51)%Q).
    { rewrite <- Qpower_plus by done. by replace (e + -51 + 51) with e by lia. }
    assert (HK : ((10 # 1) ^ 51 * (11 # 10)
                  == inject_Z 1100000000000000000000000000000000000000000000000000)%Q)
      by (by vm_compute).
    rewrite N2Z.inj_mul, Hp, inject_Z_mult.
    change (Z.of_N 1100000000000000000000000000000000000000000000000000)
      with 1100000000000000000000000000000000000000000000000000.
    rewrite <- HK. ring.
  - change (10 ^ 27)%N with 1000000000000000000000000000%N in Hlo.
    unfold D in *. clearbody M T. lia.
Qed.

(** For a positive price the result of [calculate_tax] is above 11/10 of
    the price, by less than one part in [10^16]. *)
Theorem calculate_tax_error_bound (p : Product) :
  Decimal.sign (product_unit_price p) = false →
  Decimal.coeff (product_unit_price p) ≠ 0%N →
  (Decimal.value (product_unit_price p) * (11 # 10)
     < Decimal.value (ProductSerializer.calculate_tax p))%Q
  ∧ (Decimal.value (ProductSerializer.calculate_tax p)
     <= Decimal.value (product_unit_price p) * (11 # 10)
        * (10000000000000001 # 10000000000000000))%Q.
Proof.
  destruct p as [title description slug inventory [s c e] collection].
  cbn [product_unit_price Decimal.coeff Decimal.sign]. intros -> Hc.
  destruct (calculate_tax_units title description slug inventory collection c e Hc)
    as (M & HM & HB & Hlt & Hle).
  rewrite HM, HB.
  assert (HX : (0 < Qpower (10 # 1) (e + -51))%Q) by (by apply Qpower_0_lt).
  set (X := Qpower (10 # 1) (e + -51)) in *.
  set (B := (c * 1100000000000000000000000000000000000000000000000000)%N) in *.
  split.
  - apply Qmult_lt_r; [done|]. rewrite <- Zlt_Qlt. lia.
  - rewrite <- Qmult_assoc, (Qmult_comm X), Qmult_assoc.
    apply Qmult_le_r; [done|].
    unfold Qle. simpl. lia.
Qed.

Lemma calculate_tax_error_bound_witness :
  (Decimal.value (product_unit_price tea) * (11 # 10)
     < Decimal.value (ProductSerializer.calculate_tax tea))%Q
  ∧ (Decimal.value (ProductSerializer.calculate_tax tea)
     <= Decimal.value (product_unit_price tea) * (11 # 10)
        * (10000000000000001 # 10000000000000000))%Q.
Proof. by apply (calculate_tax_error_bound tea). Defined.

(** ** Totals at the scale of the prices *)

Lemma add_same_scale (a b : Decimal.t) (e : Z) :
  Decimal.sign a = false → Decimal.sign b = false →
  Decimal.exp a = e → Decimal.exp b = e →
  (Decimal.coeff a + Decimal.coeff b < 10 ^ Decimal.prec)%N →
  Decimal.add a b = Decimal.mk false (Decimal.coeff a + Decimal.coeff b) e.
Proof.
  destruct a as [sa ca ea], b as [sb cb eb]. simpl. intros -> -> -> -> Hlt.
  unfold Decimal.add, Decimal.signed. simpl.
  rewrite Z.min_id, Z.sub_diag. change (10 ^ 0) with 1. rewrite !Z.mul_1_r.
  replace (Z.abs_N (Z.of_N ca + Z.of_N cb)) with (ca + cb)%N by lia.
  replace (if Z.of_N ca + Z.of_N cb =? 0 then false else Z.of_N ca + Z.of_N cb <? 0)
    with false.
  - by apply fix_exact.
  - destruct (Z.of_N ca + Z.of_N cb =? 0); [done|]. symmetry. apply Z.ltb_ge. lia.
Qed.

Lemma add_int_zero (d : Decimal.t) :
  Decimal.sign d = false → Decimal.exp d ≤ 0 →
  (Decimal.coeff d < 10 ^ Decimal.prec)%N →
  Decimal.add (Decimal.of_int 0) d = d.
Proof.
  destruct d as [sd c e]. simpl. intros -> He Hlt.
  unfold Decimal.add, Decimal.signed. simpl.
  rewrite Z.min_r, Z.sub_diag by done. change (10 ^ 0) with 1.
  rewrite Z.mul_1_r, Z.mul_0_l, Z.add_0_l.
  replace (Z.abs_N (Z.of_N c)) with c by lia.
  replace (if Z.of_N c =? 0 then false else Z.of_N c <? 0) with false.
  - by apply fix_exact.
  - destruct (Z.of_N c =? 0); [done|]. symmetry. apply Z.ltb_ge. lia.
Qed.

Lemma prec_pow : Z.of_N (10 ^ Decimal.prec) = 10 ^ 28.
Proof. by vm_compute. Qed.

Lemma coeff_bound_Z (q : Z) (c : N) :
  0 ≤ q → (Z.to_N q * c < 10 ^ Decimal.prec)%N → q * Z.of_N c < 10 ^ 28.
Proof.
  intros Hq Hlt. apply N2Z.inj_lt in Hlt.
  by rewrite N2Z.inj_mul, Z2N.id, prec_pow in Hlt.
Qed.

Lemma line_total_same_scale (q : Z) (c : N) (e : Z) :
  0 ≤ q → (Z.to_N q * c < 10 ^ Decimal.prec)%N →
  line_total (q, Decimal.mk false c e) = PyDec (Decimal.mk false (Z.to_N q * c) e).
Proof.
  intros Hq Hlt. unfold line_total. cbn [fst snd py_mul].
  by rewrite mul_of_int_exact; [|done|done|apply coeff_bound_Z].
Qed.

Lemma lines_coeff_cons (l : Z * Decimal.t) (lines : list (Z * Decimal.t)) :
  lines_coeff (l :: lines) = (Z.to_N l.1 * Decimal.coeff l.2 + lines_coeff lines)%N.
Proof. done. Qed.

Lemma fold_same_scale (e : Z) (lines : list (Z * Decimal.t)) : ∀ acc : N,
  Forall (λ l : Z * Decimal.t, 0 ≤ l.1 ∧ Decimal.sign l.2 = false ∧ Decimal.exp l.2 = e) lines →
  (acc + lines_coeff lines < 10 ^ Decimal.prec)%N →
  fold_left py_add (map line_total lines) (PyDec (Decimal.mk false acc e))
  = PyDec (Decimal.mk false (acc + lines_coeff lines) e).
Proof.
  induction lines as [|[q [sp c ep]] lines IH]; intros acc Hall Hlt.
  - simpl. do 2 f_equal. unfold lines_coeff. simpl. lia.
  - apply Forall_cons in Hall as [(Hq & Hs & He) Hall]. simpl in Hq, Hs, He. subst sp ep.
    rewrite lines_coeff_cons in Hlt |- *. cbn [fst snd Decimal.coeff] in Hlt |- *.
    assert (Hqc : (Z.to_N q * c < 10 ^ Decimal.prec)%N).
    { revert Hlt. generalize (10 ^ Decimal.prec)%N. intros B Hlt. lia. }
    cbn [map fold_left]. rewrite line_total_same_scale by done. cbn [py_add].
    rewrite add_same_scale with (e := e); try done.
    2:{ cbn [Decimal.coeff]. revert Hlt. generalize (10 ^ Decimal.prec)%N. intros B Hlt. lia. }
    cbn [Decimal.coeff].
    rewrite IH; [|done|].
    + do 2 f_equal. lia.
    + revert Hlt. generalize (10 ^ Decimal.prec)%N. intros B Hlt. lia.
Qed.

Lemma cart_lines_same_scale (s : Store) (cart : UUID) (e : Z) :
  e ≤ 0 →
  (∃ k item, cartitems s !! k = Some item ∧ cartitem_cart item = cart) →
  (∀ k item, cartitems s !! k = Some item → cartitem_cart item = cart →
     0 ≤ cartitem_quantity item
     ∧ ∃ p, products s !! cartitem_product item = Some p
            ∧ Decimal.sign (product_unit_price p) = false
            ∧ Decimal.exp (product_unit_price p) = e) →
  (lines_coeff (cart_lines s cart) < 10 ^ Decimal.prec)%N →
  CartSerializer.get_total_price s cart
  = Ok (PyDec (Decimal.mk false (lines_coeff (cart_lines s cart)) e)).
Proof.
  intros He (k0 & item0 & Hk0 & Hc0) Hitems Hlt.
  assert (Hok : Forall (λ l : Z * Decimal.t,
                   0 ≤ l.1 ∧ Decimal.sign l.2 = false ∧ Decimal.exp l.2 = e)
                  (cart_lines s cart)).
  { unfold cart_lines, rows_lines. apply Forall_map, Forall_forall. intros [k item] Hin.
    apply elem_of_cart_items in Hin as [Hk Hc].
    destruct (Hitems k item Hk Hc) as (Hq & p & Hp & Hs & Hexp).
    unfold unit_price_of. simpl. by rewrite Hp. }
  assert (Hrun : CartSerializer.get_total_price s cart =
                 Ok (py_sum (map line_total (cart_lines s cart)))).
  { unfold CartSerializer.get_total_price, cart_lines, rows_lines. rewrite map_map.
    erewrite mapR_Ok; [reflexivity|].
    apply Forall_forall. intros [k item] Hin.
    apply elem_of_cart_items in Hin as [Hk Hc].
    destruct (Hitems k item Hk Hc) as (Hq & p & Hp & Hs & Hexp).
    unfold related_product, unit_price_of, line_total. simpl. by rewrite Hp. }
  rewrite Hrun. f_equal.
  assert (Hne : cart_lines s cart ≠ []).
  { unfold cart_lines, rows_lines. intros Hnil. apply fmap_nil_inv in Hnil.
    assert (Hin : (k0, item0) ∈ cart_items s cart) by (by apply elem_of_cart_items).
    rewrite Hnil in Hin. by apply not_elem_of_nil in Hin. }
  destruct (cart_lines s cart) as [|[q [sp c ep]] lines]; [done|].
  apply Forall_cons in Hok as [(Hq & Hs & Hexp) Hok]. simpl in Hq, Hs, Hexp. subst sp ep.
  rewrite lines_coeff_cons in Hlt |- *. cbn [fst snd Decimal.coeff] in Hlt |- *.
  assert (Hqc : (Z.to_N q * c < 10 ^ Decimal.prec)%N).
  { revert Hlt. generalize (10 ^ Decimal.prec)%N. intros B Hlt. lia. }
  unfold py_sum. cbn [map fold_left]. rewrite line_total_same_scale by done.
  cbn [py_add]. rewrite add_int_zero; [|done|done|done].
  by rewrite fold_same_scale.
Qed.

Lemma lines_coeff_perm (lines lines' : list (Z * Decimal.t)) :
  lines ≡ₚ lines' → lines_coeff lines = lines_coeff lines'.
Proof.
  induction 1 as [|l lines lines' _ IH|l l' lines|lines lines' lines'' _ IH1 _ IH2].
  - done.
  - by rewrite !lines_coeff_cons, IH.
  - rewrite !lines_coeff_cons. lia.
  - by rewrite IH1.
Qed.

(** When the prices of a cart's items have the same exponent [e] (two
    decimals, say), the total of the cart is the decimal with that exponent
    whose coefficient is the sum of quantity times price coefficient over
    the rows of the cart, listed in any order, as long as this sum has at
    most 28 digits. *)
Theorem cart_total_same_scale (s : Store) (cart : UUID) (e : Z)
    (rows : list (Z * CartItem)) :
  rows_of_cart s cart rows →
  rows ≠ [] →
  e ≤ 0 →
  (∀ k item, (k, item) ∈ rows →
     0 ≤ cartitem_quantity item
     ∧ ∃ p, products s !! cartitem_product item = Some p
            ∧ Decimal.sign (product_unit_price p) = false
            ∧ Decimal.exp (product_unit_price p) = e) →
  (lines_coeff (rows_lines s rows) < 10 ^ Decimal.prec)%N →
  CartSerializer.get_total_price s cart
  = Ok (PyDec (Decimal.mk false (lines_coeff (rows_lines s rows)) e)).
Proof.
  intros Hrows Hne He Hitems Hlt.
  pose proof (rows_of_cart_perm s cart _ _ (cart_items_rows s cart) Hrows) as Hperm.
  assert (Hcoeff : lines_coeff (cart_lines s cart) = lines_coeff (rows_lines s rows)).
  { apply lines_coeff_perm. unfold cart_lines, rows_lines. by apply fmap_Permutation. }
  rewrite <- Hcoeff in Hlt |- *. destruct Hrows as [_ Hin].
  apply cart_lines_same_scale; try done.
  - destruct rows as [|[k item] rows]; [done|]. exists k, item.
    apply Hin, list_elem_of_here.
  - intros k item Hk Hc. apply (Hitems k). by apply Hin.
Qed.

(** The two rows of cart 5, listed either way: 2 * 10.00 + 3 * 2.50 = 27.50. *)
Lemma cart_total_same_scale_witness :
  CartSerializer.get_total_price market_carts 5%N
  = Ok (PyDec (Decimal.mk false
                 (lines_coeff (rows_lines market_carts [(2, three_coffees); (1, two_teas)]))
                 (-2)))
  ∧ lines_coeff (rows_lines market_carts [(2, three_coffees); (1, two_teas)]) = 2750%N.
Proof.
  split; [|reflexivity].
  apply (cart_total_same_scale market_carts 5%N (-2) [(2, three_coffees); (1, two_teas)]);
    try done.
  - split.
    + cbn. apply NoDup_cons. split; [|apply NoDup_singleton].
      rewrite list_elem_of_singleton. lia.
    + intros k item. rewrite !elem_of_cons, elem_of_nil. split.
      * intros [[= -> ->]|[[= -> ->]|[]]]; by split.
      * intros [Hk Hc]. a_row Hk; [right; by left|by left|discriminate].
  - intros k item. rewrite !elem_of_cons, elem_of_nil.
    intros [[= -> ->]|[[= -> ->]|[]]]; (split; [simpl; lia|]).
    + by exists coffee.
    + by exists tea.
Defined.

(** ** Pages *)

Lemma chunks_concat {A} (size : nat) (k : nat) : ∀ l : list A,
  (length l ≤ k * size)%nat →
  concat ((λ i, take size (drop (i * size) l)) <$> seq 0 k) = l.
Proof.
  induction k as [|k IH]; intros l Hlen.
  - simpl in *. destruct l; [done|simpl in Hlen; lia].
  - cbn [seq]. rewrite <- fmap_S_seq, fmap_cons, <- list_fmap_compose. cbn [concat].
    transitivity (take size l ++ drop size l); [|apply take_drop].
    f_equal.
    rewrite <- (IH (drop size l)) by (rewrite length_drop; lia).
    f_equal. apply list_fmap_ext. intros i x _. simpl.
    by rewrite drop_drop.
Qed.

Lemma num_pages_covers (count : nat) :
  (1 ≤ DefaultPagination.num_pages count
   ∧ count ≤ DefaultPagination.num_pages count * DefaultPagination.page_size
   ∧ (count ≠ 0 →
      (DefaultPagination.num_pages count - 1) * DefaultPagination.page_size < count))%nat.
Proof.
  unfold DefaultPagination.num_pages, DefaultPagination.page_size.
  destruct (decide (count = 0)%nat) as [->|Hne]; [simpl; lia|].
  pose proof (Nat.div_mod_eq (count + 10 - 1) 10) as Hdiv.
  pose proof (Nat.mod_upper_bound (count + 10 - 1) 10 ltac:(lia)) as Hmod.
  lia.
Qed.

(** The pages 1 to [num_pages] of a listing, in order, give the listing
    back; no page has more than 10 results, every page but the last has
    exactly 10, and any other page number is answered 404. *)
Theorem pages_partition {A} (queryset : list A) :
  let n := DefaultPagination.num_pages (length queryset) in
  ∃ pages,
    mapR (DefaultPagination.paginate_queryset queryset) (seq 1 n) = Ok pages
    ∧ concat pages = queryset
    ∧ Forall (λ page, (length page ≤ 10)%nat) pages
    ∧ (∀ i page, pages !! i = Some page → (S i < n)%nat → length page = 10%nat)
    ∧ (∀ page, (page = 0 ∨ n < page)%nat →
         DefaultPagination.paginate_queryset queryset page = Raise Http404).
Proof.
  intros n. destruct (num_pages_covers (length queryset)) as (Hn1 & Hcover & Hlast).
  fold n in Hn1, Hcover, Hlast.
  set (chunk := λ i : nat, take DefaultPagination.page_size
                            (drop (i * DefaultPagination.page_size) queryset)).
  exists (chunk <$> seq 0 n). split; [|split; [|split; [|split]]].
  - rewrite <- fmap_S_seq.
    assert (Hall : ∀ idx : list nat, Forall (λ i, i < n)%nat idx →
              mapR (DefaultPagination.paginate_queryset queryset) (S <$> idx)
              = Ok (chunk <$> idx)).
    { induction 1 as [|i idx Hi _ IH]; [done|]. rewrite !fmap_cons. cbn [mapR].
      rewrite IH.
      unfold DefaultPagination.paginate_queryset at 1. fold n.
      destruct (decide _) as [_|Hno]; [|lia]. simpl.
      by replace (i - 0)%nat with i by lia. }
    apply Hall. apply Forall_forall. intros i Hi. apply elem_of_seq in Hi. lia.
  - by apply chunks_concat.
  - apply Forall_fmap, Forall_forall. intros i _. unfold chunk. simpl.
    rewrite length_take. unfold DefaultPagination.page_size. lia.
  - intros i page Hi Hlt. rewrite list_lookup_fmap in Hi.
    destruct (seq 0 n !! i) as [j|] eqn:Hj; [|done]. simpl in Hi.
    apply lookup_seq in Hj as [-> _]. inversion Hi; subst page. unfold chunk.
    rewrite length_take, length_drop.
    assert (Hne : (length queryset ≠ 0)%nat).
    { intros H0. assert (n = 1)%nat by (unfold n; by rewrite H0). lia. }
    specialize (Hlast Hne). unfold DefaultPagination.page_size in *.
    assert (i * 10 + 10 ≤ (n - 1) * 10)%nat by nia. lia.
  - intros page Hpage. unfold DefaultPagination.paginate_queryset. fold n.
    destruct (decide _) as [Hin|]; [lia|done].
Qed.

(** ** Counting the products of the collections *)

Section counting.
Implicit Types (cols : gmap Z Collection) (prods : gmap Z Product).

Lemma count_total_insert cols prods pk c :
  cols !! pk = None →
  count_total (<[pk := c]> cols) prods = count_in pk prods + count_total cols prods.
Proof.
  intros Hpk. unfold count_total. rewrite map_fold_insert_L; [done| |done].
  intros. lia.
Qed.

Lemma count_in_insert prods pk i x :
  prods !! i = None →
  count_in pk (<[i := x]> prods)
  = count_in pk prods + (if decide (product_collection x = pk) then 1 else 0).
Proof.
  intros Hi. unfold count_in. destruct (decide _) as [Heq|Hne].
  - rewrite map_filter_insert_True by done.
    rewrite map_size_insert_None; [lia|].
    apply map_lookup_filter_None. by left.
  - rewrite map_filter_insert_not' ; [lia|done|].
    intros y Hy. by rewrite Hi in Hy.
Qed.

Lemma count_total_insert_product cols : ∀ prods i x,
  prods !! i = None →
  count_total cols (<[i := x]> prods)
  = count_total cols prods + (if decide (is_Some (cols !! product_collection x)) then 1 else 0).
Proof.
  induction cols as [|pk c cols Hpk IH] using map_ind; intros prods i x Hi.
  - unfold count_total. rewrite !map_fold_empty.
    destruct (decide _) as [[y Hy]|]; [by rewrite lookup_empty in Hy|lia].
  - rewrite !count_total_insert, count_in_insert, IH by done.
    destruct (decide (product_collection x = pk)) as [Heq|Hne].
    + rewrite Heq, lookup_insert_eq, Hpk.
      destruct (decide (is_Some (Some c))) as [_|Hn]; [|by destruct Hn; eexists].
      destruct (decide (is_Some None)) as [[y Hy]|_]; [done|lia].
    + rewrite lookup_insert_ne by done.
      destruct (decide (is_Some (cols !! product_collection x))); lia.
Qed.

Lemma count_total_empty cols : count_total cols ∅ = 0.
Proof.
  induction cols as [|pk c cols Hpk IH] using map_ind.
  - by unfold count_total; rewrite map_fold_empty.
  - rewrite count_total_insert, IH by done. unfold count_in. by rewrite map_filter_empty.
Qed.

Lemma count_total_size cols : ∀ prods,
  (∀ k p, prods !! k = Some p → is_Some (cols !! product_collection p)) →
  count_total cols prods = Z.of_nat (size prods).
Proof.
  induction prods as [|i x prods Hi IH] using map_ind; intros Hall.
  - by rewrite count_total_empty, map_size_empty.
  - rewrite count_total_insert_product, map_size_insert_None by done.
    rewrite IH.
    + destruct (decide _) as [_|Hn]; [lia|].
      destruct Hn. apply (Hall i). apply lookup_insert_eq.
    + intros k p Hk. apply (Hall k). rewrite lookup_insert_ne; [done|].
      intros ->. by rewrite Hi in Hk.
Qed.

Lemma fold_annotated (g : Z → Z) cols :
  map_fold (λ _ (row : Collection * Z) acc, row.2 + acc) 0
           (map_imap (λ pk c, Some (c, g pk)) cols)
  = map_fold (λ pk (_ : Collection) acc, g pk + acc) 0 cols.
Proof.
  induction cols as [|pk c cols Hpk IH] using map_ind.
  - by rewrite map_imap_empty, !map_fold_empty.
  - rewrite (map_imap_insert_Some _ _ _ _ (c, g pk)) by done.
    rewrite (map_fold_insert_L _ _ pk (c, g pk)).
    + rewrite (map_fold_insert_L _ _ pk c); [by rewrite IH| |done]. intros. lia.
    + intros. lia.
    + by rewrite map_lookup_imap, Hpk.
Qed.

Lemma queryset_sum_total (s : Store) :
  products_count_sum s = count_total (collections s) (products s).
Proof.
  unfold products_count_sum, CollectionViewSet_queryset.
  by rewrite (fold_annotated (products_count s)).
Qed.
End counting.

(** When every product belongs to a collection of the store, the
    [products_count] of the collections add up to the number of products. *)
Theorem products_count_sums_to_products (s : Store) :
  (∀ k p, products s !! k = Some p → is_Some (collections s !! product_collection p)) →
  products_count_sum s = Z.of_nat (size (products s)).
Proof. intros Hall. rewrite queryset_sum_total. by apply count_total_size. Qed.

Lemma products_count_sums_to_products_witness :
  products_count_sum shop_snacks = 1.
Proof.
  rewrite (products_count_sums_to_products shop_snacks); [reflexivity|].
  intros k p Hk. unfold shop_snacks, shop in Hk. cbn [products] in Hk.
  apply lookup_singleton_Some in Hk as [<- <-]. by eexists.
Defined.

(** ** The total after an add *)

Lemma Qsum_perm {A} (f : A → Q) (l l' : list A) :
  l ≡ₚ l' → (foldr Qplus 0 (map f l) == foldr Qplus 0 (map f l'))%Q.
Proof.
  induction 1 as [|x l l' _ IH|x y l|l l' l'' _ IH1 _ IH2]; simpl.
  - reflexivity.
  - by rewrite IH.
  - ring.
  - by rewrite IH1.
Qed.

(** The exact total of a cart, from any listing of its rows and any store
    with the same products. *)
Lemma exact_total_rows (s s0 : Store) (cart : UUID) (rows : list (Z * CartItem)) :
  products s = products s0 →
  cart_items s cart ≡ₚ rows →
  (exact_total s cart
   == foldr Qplus 0 (map (λ kv : Z * CartItem,
                            inject_Z (cartitem_quantity kv.2)
                            * Decimal.value (unit_price_of s0 kv.2)) rows))%Q.
Proof.
  intros Hprod Hperm. unfold exact_total, cart_lines, rows_lines. rewrite map_map. simpl.
  unfold unit_price_of. rewrite Hprod. by apply Qsum_perm.
Qed.

(** With at most one row per cart and product the lookup of [save] does
    not raise [MultipleObjectsReturned]. *)
Lemma CartItem_objects_get_not_Multiple (s : Store) (cart : UUID) (pid : Z) :
  one_row_per_cart_product s →
  CartItem_objects_get s cart pid ≠ Raise MultipleObjectsReturned.
Proof.
  intros Hu Hget. unfold CartItem_objects_get in Hget.
  destruct (map_to_list _) as [|[k1 i1] [|[k2 i2] l]] eqn:E; try done.
  pose proof (NoDup_map_to_list (filter (λ kv : Z * CartItem,
     cartitem_cart kv.2 = cart ∧ cartitem_product kv.2 = pid) (cartitems s))) as Hnd.
  assert (H1 : (k1, i1) ∈ map_to_list (filter (λ kv : Z * CartItem,
     cartitem_cart kv.2 = cart ∧ cartitem_product kv.2 = pid) (cartitems s)))
    by (rewrite E; apply list_elem_of_here).
  assert (H2 : (k2, i2) ∈ map_to_list (filter (λ kv : Z * CartItem,
     cartitem_cart kv.2 = cart ∧ cartitem_product kv.2 = pid) (cartitems s)))
    by (rewrite E; apply list_elem_of_further, list_elem_of_here).
  rewrite E in Hnd.
  apply elem_of_map_to_list, map_lookup_filter_Some in H1 as [H1 [Hc1 Hp1]].
  apply elem_of_map_to_list, map_lookup_filter_Some in H2 as [H2 [Hc2 Hp2]].
  simpl in *. assert (k1 = k2) by (apply (Hu k1 k2 i1 i2); congruence). subst k2.
  rewrite H1 in H2. inversion H2; subst i2.
  apply NoDup_cons in Hnd as [Hnot _]. apply Hnot, list_elem_of_here.
Qed.

(** With at most one row per cart and product, an existing cart and an
    existing product, [save] returns, and leaves one of two stores. *)
Lemma save_Ok_store (s : Store) (cart : UUID) (vd : AddCartItemSerializer.validated_data) :
  one_row_per_cart_product s →
  is_Some (products s !! AddCartItemSerializer.product_id vd) →
  cart ∈ carts s →
  ∃ pk item' s',
    AddCartItemSerializer.save s cart vd = Ok (pk, item', s')
    ∧ s' = match CartItem_objects_get s cart (AddCartItemSerializer.product_id vd) with
           | Ok (pk, item) =>
               CartItem_save s pk
                 {| cartitem_cart := cartitem_cart item;
                    cartitem_product := cartitem_product item;
                    cartitem_quantity := cartitem_quantity item
                                         + AddCartItemSerializer.quantity vd |}
           | Raise _ =>
               CartItem_insert s (next_pk (cartitems_seq s) (cartitems s))
                 {| cartitem_cart := cart;
                    cartitem_product := AddCartItemSerializer.product_id vd;
                    cartitem_quantity := AddCartItemSerializer.quantity vd |}
           end.
Proof.
  intros Hu Hex Hcart.
  pose proof (save_store s cart vd) as Hstore.
  pose proof (CartItem_objects_get_not_Multiple s cart
                (AddCartItemSerializer.product_id vd) Hu) as Hnm.
  pose proof (CartItem_objects_get_inv s cart (AddCartItemSerializer.product_id vd)) as Hinv.
  destruct (AddCartItemSerializer.save s cart vd) as [[[pk item'] s']|e].
  - by exists pk, item', s'.
  - exfalso.
    destruct (CartItem_objects_get s cart (AddCartItemSerializer.product_id vd))
      as [[pk item]|e']; [done|].
    destruct e'; try discriminate Hinv; [|done].
    destruct Hstore as [_ Hn]. by apply Hn.
Qed.

Lemma exact_total_add (s s' : Store) (cart : UUID)
    (vd : AddCartItemSerializer.validated_data) (pk0 : Z) (item0 : CartItem) (p : Product) :
  one_row_per_cart_product s →
  0 ≤ AddCartItemSerializer.quantity vd →
  products s !! AddCartItemSerializer.product_id vd = Some p →
  cart ∈ carts s →
  AddCartItemSerializer.save s cart vd = Ok (pk0, item0, s') →
  products s' = products s
  ∧ (exact_total s' cart
     == exact_total s cart
        + inject_Z (AddCartItemSerializer.quantity vd) * Decimal.value (product_unit_price p))%Q
  ∧ ∀ k item', cartitems s' !! k = Some item' → cartitem_cart item' = cart →
      (∃ item, cartitems s !! k = Some item ∧ cartitem_cart item = cart
               ∧ cartitem_product item' = cartitem_product item
               ∧ cartitem_quantity item ≤ cartitem_quantity item')
      ∨ (cartitem_product item' = AddCartItemSerializer.product_id vd
         ∧ cartitem_quantity item' = AddCartItemSerializer.quantity vd).
Proof.
  intros Hu Hpos Hprod Hcart Hsave.
  destruct vd as [pid q]. simpl in *.
  assert (Hex : is_Some (products s !! pid)) by (by eexists).
  destruct (save_Ok_store s cart {| AddCartItemSerializer.product_id := pid;
                                    AddCartItemSerializer.quantity := q |} Hu Hex Hcart)
    as (pk1 & item1 & s1 & Hsave1 & Hs').
  rewrite Hsave in Hsave1. injection Hsave1 as <- <- <-.
  simpl in Hs'.
  pose proof (CartItem_objects_get_inv s cart pid) as Hinv.
  pose proof (CartItem_objects_get_not_Multiple s cart pid Hu) as Hnm.
  set (P := λ kv : Z * CartItem, cartitem_cart kv.2 = cart).
  destruct (CartItem_objects_get s cart pid) as [[pk item]|e] eqn:Hget.
  - destruct Hinv as (Hpk & Hc & Hpr).
    set (item' := {| cartitem_cart := cartitem_cart item;
                     cartitem_product := cartitem_product item;
                     cartitem_quantity := cartitem_quantity item + q |}) in *.
    assert (Hsame : products s' = products s) by (by rewrite Hs').
    split; [done|]. split.
    + set (rest := filter P (delete pk (cartitems s))).
      assert (Hrest : rest !! pk = None).
      { apply map_lookup_filter_None. left. apply lookup_delete_eq. }
      assert (Hold : cart_items s cart ≡ₚ (pk, item) :: map_to_list rest).
      { unfold cart_items. fold P.
        rewrite <- (insert_delete_id (cartitems s) pk item) at 1 by done.
        rewrite map_filter_insert_True by done. by apply map_to_list_insert. }
      assert (Hnew : cart_items s' cart ≡ₚ (pk, item') :: map_to_list rest).
      { unfold cart_items. fold P. rewrite Hs'. simpl.
        rewrite <- insert_delete_eq.
        rewrite map_filter_insert_True by done. by apply map_to_list_insert. }
      rewrite (exact_total_rows s' s cart _ Hsame Hnew),
        (exact_total_rows s s cart _ eq_refl Hold).
      simpl. unfold unit_price_of at 1 3. simpl. rewrite Hpr, Hprod.
      rewrite inject_Z_plus. ring.
    + intros k it Hk Hc'. left. rewrite Hs' in Hk. simpl in Hk.
      destruct (decide (k = pk)) as [->|Hne].
      * rewrite lookup_insert_eq in Hk. inversion Hk; subst it.
        exists item. simpl. repeat split; try done. lia.
      * rewrite lookup_insert_ne in Hk by done. by exists it.
  - set (pk := next_pk (cartitems_seq s) (cartitems s)) in *.
    set (item' := {| cartitem_cart := cart; cartitem_product := pid;
                     cartitem_quantity := q |}) in *.
    assert (Hnone : ∀ k item, cartitems s !! k = Some item →
              ¬ (cartitem_cart item = cart ∧ cartitem_product item = pid)).
    { destruct e; try discriminate Hinv; [done|by destruct Hnm]. }
    assert (Hsame : products s' = products s) by (by rewrite Hs').
    split; [done|]. split.
    + assert (Hnew : cart_items s' cart ≡ₚ (pk, item') :: cart_items s cart).
      { unfold cart_items. fold P. rewrite Hs'. simpl.
        rewrite map_filter_insert_True by done. apply map_to_list_insert.
        apply map_lookup_filter_None. left. apply next_pk_fresh. }
      rewrite (exact_total_rows s' s cart _ Hsame Hnew),
        (exact_total_rows s s cart (cart_items s cart) eq_refl) by done.
      simpl. unfold unit_price_of at 1. simpl. rewrite Hprod. ring.
    + intros k it Hk Hc'. rewrite Hs' in Hk. simpl in Hk.
      destruct (decide (k = pk)) as [->|Hne].
      * rewrite lookup_insert_eq in Hk. inversion Hk; subst it. by right.
      * rewrite lookup_insert_ne in Hk by done. left. by exists it.
Qed.

Lemma get_total_price_lines (s : Store) (cart : UUID) :
  (∀ k item, cartitems s !! k = Some item → cartitem_cart item = cart →
     is_Some (products s !! cartitem_product item)) →
  CartSerializer.get_total_price s cart = Ok (py_sum (map line_total (cart_lines s cart))).
Proof.
  intros Hitems. unfold CartSerializer.get_total_price, cart_lines, rows_lines.
  rewrite map_map. erewrite mapR_Ok; [reflexivity|].
  apply Forall_forall. intros [k item] Hin.
  apply elem_of_cart_items in Hin as [Hk Hc].
  destruct (Hitems k item Hk Hc) as [p Hp].
  unfold related_product, unit_price_of, line_total. simpl. by rewrite Hp.
Qed.

Lemma value_nonneg (d : Decimal.t) :
  Decimal.sign d = false → (0 <= Decimal.value d)%Q.
Proof.
  intros Hs. unfold Decimal.value, Decimal.signed. rewrite Hs.
  apply Qmult_le_0_compat.
  - change 0%Q with (inject_Z 0). rewrite <- Zle_Qle. lia.
  - by apply Qpower_0_le.
Qed.

(** In a store with at most one row per cart and product, [save] of [q]
    units of a product to a cart returns and raises the total of the cart by
    [q] times the unit price, within the precision. *)
Theorem add_raises_total (s : Store) (cart : UUID)
    (vd : AddCartItemSerializer.validated_data) (p : Product) (E : Z) :
  one_row_per_cart_product s →
  0 ≤ AddCartItemSerializer.quantity vd →
  products s !! AddCartItemSerializer.product_id vd = Some p →
  cart ∈ carts s →
  E ≤ 0 →
  Decimal.sign (product_unit_price p) = false →
  E ≤ Decimal.exp (product_unit_price p) →
  (∀ k item, cartitems s !! k = Some item → cartitem_cart item = cart →
     is_Some (products s !! cartitem_product item)
     ∧ line_ok E (cartitem_quantity item, unit_price_of s item)) →
  (exact_total s cart
   + inject_Z (AddCartItemSerializer.quantity vd) * Decimal.value (product_unit_price p)
   < Qpower (10 # 1) (28 + E))%Q →
  ∃ pk item' s' v v',
    AddCartItemSerializer.save s cart vd = Ok (pk, item', s')
    ∧ CartSerializer.get_total_price s cart = Ok v
    ∧ CartSerializer.get_total_price s' cart = Ok v'
    ∧ (py_value v'
       == py_value v
          + inject_Z (AddCartItemSerializer.quantity vd)
            * Decimal.value (product_unit_price p))%Q.
Proof.
  intros Hu Hpos Hprod Hcart HE Hsign Hexp Hrows Hlt.
  assert (Hex : is_Some (products s !! AddCartItemSerializer.product_id vd)) by (by eexists).
  destruct (save_Ok_store s cart vd Hu Hex Hcart) as (pk & item0 & s' & Hsave & _).
  destruct (exact_total_add s s' cart vd pk item0 p Hu Hpos Hprod Hcart Hsave)
    as (Hsame & Htotal & Hrows').
  set (q := AddCartItemSerializer.quantity vd) in *.
  set (pid := AddCartItemSerializer.product_id vd) in *.
  assert (Hprice : ∀ item, unit_price_of s' item = unit_price_of s item).
  { intros item. unfold unit_price_of. by rewrite Hsame. }
  assert (Hrows2 : ∀ k item, cartitems s' !! k = Some item → cartitem_cart item = cart →
            is_Some (products s' !! cartitem_product item)
            ∧ line_ok E (cartitem_quantity item, unit_price_of s' item)).
  { intros k item' Hk Hc. rewrite Hsame, Hprice.
    destruct (Hrows' k item' Hk Hc) as [(item & Hk0 & Hc0 & Hpr & Hle)|[Hpr Hqq]].
    - destruct (Hrows k item Hk0 Hc0) as (Hex0 & Hq0 & Hs0 & He0). simpl in *.
      rewrite Hpr. split; [done|]. unfold line_ok, unit_price_of in *. simpl.
      rewrite Hpr. repeat split; try done. lia.
    - rewrite Hpr. split; [by eexists|]. unfold line_ok, unit_price_of. simpl.
      rewrite Hpr, Hprod, Hqq. repeat split; try done. }
  assert (Hok : Forall (line_ok E) (cart_lines s cart)).
  { unfold cart_lines, rows_lines. apply Forall_map, Forall_forall. intros [k item] Hin.
    apply elem_of_cart_items in Hin as [Hk Hc]. by apply (Hrows k). }
  assert (Hok' : Forall (line_ok E) (cart_lines s' cart)).
  { unfold cart_lines, rows_lines. apply Forall_map, Forall_forall. intros [k item] Hin.
    apply elem_of_cart_items in Hin as [Hk Hc]. by apply (Hrows2 k). }
  exists pk, item0, s', (py_sum (map line_total (cart_lines s cart))),
         (py_sum (map line_total (cart_lines s' cart))).
  split; [done|].
  split; [apply get_total_price_lines; intros k item Hk Hc; by apply (Hrows k)|].
  split; [apply get_total_price_lines; intros k item Hk Hc; by apply (Hrows2 k)|].
  pose proof (value_nonneg _ Hsign) as Hv.
  assert (Hadd : (0 <= inject_Z q * Decimal.value (product_unit_price p))%Q).
  { apply Qmult_le_0_compat; [|done]. change 0%Q with (inject_Z 0).
    by rewrite <- Zle_Qle. }
  rewrite (cart_total_exact s' cart E), (cart_total_exact s cart E); try done.
  - eapply Qle_lt_trans; [|exact Hlt].
    rewrite <- (Qplus_0_r (exact_total s cart)) at 1.
    by apply Qplus_le_r.
  - by rewrite Htotal.
Qed.

(** Three more teas for cart 5 of the market, which holds teas and coffees. *)
Lemma add_raises_total_witness :
  ∃ pk item' s' v v',
    AddCartItemSerializer.save market_carts 5%N
      {| AddCartItemSerializer.product_id := 1; AddCartItemSerializer.quantity := 3 |}
    = Ok (pk, item', s')
    ∧ CartSerializer.get_total_price market_carts 5%N = Ok v
    ∧ CartSerializer.get_total_price s' 5%N = Ok v'
    ∧ (py_value v' == py_value v + inject_Z 3 * Decimal.value (product_unit_price tea))%Q.
Proof.
  apply (add_raises_total market_carts 5%N
           {| AddCartItemSerializer.product_id := 1; AddCartItemSerializer.quantity := 3 |}
           tea (-2)); try reflexivity; try (simpl; lia).
  - apply market_carts_unique.
  - intros k item Hk Hc. a_row Hk; try discriminate; (split; [by eexists|by vm_compute]).
Defined.

Lemma calculate_tax_never_exact_witness :
  ¬ (Decimal.value (ProductSerializer.calculate_tax tea)
     == Decimal.value (product_unit_price tea) * (11 # 10))%Q.
Proof. by apply (calculate_tax_never_exact tea). Defined.
